(** * The authentication endpoint of the text-to-speech service (api/auth.js)

    A shallow embedding of [api/auth.js]: the request handler exported by the
    module, its helper [kvRequest], and the JavaScript operations they rely on
    (truthiness, property access, destructuring, template literals,
    [try]/[catch]).  Everything outside the file (the remote key-value store
    behind [fetch], [bcryptjs], [jsonwebtoken], [crypto.randomUUID],
    [console.error]) is an external call: the handler is a program that
    performs calls and continues with their answers, and a world answers
    them. *)

From stdpp Require Import base strings list gmap pretty.
From Stdlib Require Import ZArith Ascii.

Set Warnings "-register-all".
Local Open Scope string_scope.
Local Open Scope Z_scope.

(** ** JavaScript values *)

(** The values a JSON request body, a store answer or a response body can
    hold, and [undefined] for an absent property.  [JNum n] is the number
    that the integer numeral [n] denotes: [n] itself up to 2^53, the nearest
    double beyond; a JSON text is represented by the value it denotes, so
    [JSON.stringify] followed by parsing is the identity.  An object lists
    its own properties, each name once. *)
Inductive JsValue : Type :=
| JUndefined
| JNull
| JBool (b : bool)
| JNum (n : Z)
| JStr (s : string)
| JArr (items : list JsValue)
| JObj (props : list (string * JsValue)).

(** A thrown [Error] object: its [name] and its [message]. *)
Record JsError : Type := mkError { error_name : string; error_message : string }.

Definition Error (message : string) : JsError := mkError "Error" message.
Definition TypeError (message : string) : JsError := mkError "TypeError" message.

(** How an evaluation ends: with a value, or by throwing. *)
Inductive Completion (A : Type) : Type :=
| Normal (a : A)
| Thrown (e : JsError).
Arguments Normal {A} a.
Arguments Thrown {A} e.

Definition completion_bind {A B} (c : Completion A) (f : A → Completion B) : Completion B :=
  match c with
  | Normal a => f a
  | Thrown e => Thrown e
  end.

(** [!v] is [negb (is_truthy v)]: [undefined], [null], [false], [0] and the
    empty string are falsy, every other value is truthy. *)
Definition is_truthy (v : JsValue) : bool :=
  match v with
  | JUndefined | JNull => false
  | JBool b => b
  | JNum n => negb (n =? 0)
  | JStr s => negb (String.eqb s EmptyString)
  | JArr _ | JObj _ => true
  end.

(** [v === s] for a string literal [s]. *)
Definition strict_eq_str (v : JsValue) (s : string) : bool :=
  match v with
  | JStr t => String.eqb t s
  | _ => false
  end.

Fixpoint own_prop (props : list (string * JsValue)) (name : string) : JsValue :=
  match props with
  | [] => JUndefined
  | (k, v) :: rest => if String.eqb k name then v else own_prop rest name
  end.

(** [v.name] on a value that is neither [null] nor [undefined]; the names
    read by this file are not built-in properties of strings, arrays or
    numbers, where the result is [undefined]. *)
Definition prop (v : JsValue) (name : string) : JsValue :=
  match v with
  | JObj props => own_prop props name
  | _ => JUndefined
  end.

(** [v.name]: a [TypeError] on [null] and [undefined]. *)
Definition get_prop (v : JsValue) (name : string) : Completion JsValue :=
  match v with
  | JUndefined =>
      Thrown (TypeError ("Cannot read properties of undefined (reading '" +:+ name +:+ "')"))
  | JNull =>
      Thrown (TypeError ("Cannot read properties of null (reading '" +:+ name +:+ "')"))
  | _ => Normal (prop v name)
  end.

(** [const { first, ... } = v] where [v] is written [source] in the program:
    a [TypeError] on [null] and [undefined], before any property is read. *)
Definition destructure (source : string) (first : string) (v : JsValue) : Completion JsValue :=
  match v with
  | JUndefined =>
      Thrown (TypeError ("Cannot destructure property '" +:+ first +:+ "' of '"
                         +:+ source +:+ "' as it is undefined."))
  | JNull =>
      Thrown (TypeError ("Cannot destructure property '" +:+ first +:+ "' of '"
                         +:+ source +:+ "' as it is null."))
  | _ => Normal v
  end.

Definition has_own (props : list (string * JsValue)) (name : string) : bool :=
  existsb (λ kv, String.eqb kv.1 name) props.

(** ** Numbers as text *)

(** The double nearest to the integer [a] of at least 2^53, ties to the even
    significand, as a numeral of that value is read; none beyond the
    largest double. *)
Definition nearest_double (a : Z) : option Z :=
  let shift := Z.log2 a - 52 in
  let q := Z.shiftr a shift in
  let r := a - Z.shiftl q shift in
  let half := Z.shiftl 1 (shift - 1) in
  let q' := if (half <? r) || ((r =? half) && Z.odd q) then q + 1 else q in
  let v := Z.shiftl q' shift in
  if 2 ^ 1024 <=? v then None else Some v.

(** Whether the integer [c] is read as the double [v] of at least 2^53:
    whether it lies between the midpoints to the two neighbours of [v],
    which themselves are read as [v] when its significand is even.  The
    bounds are taken four times, the lower neighbour of a power of two
    being half as far. *)
Definition reads_as (v c : Z) : bool :=
  let shift := Z.log2 v - 52 in
  let m := Z.shiftr v shift in
  let up := 2 ^ (shift + 1) in
  let down := if m =? 2 ^ 52 then 2 ^ shift else up in
  if Z.even m
  then (4 * v - down <=? 4 * c) && (4 * c <=? 4 * v + up)
  else (4 * v - down <? 4 * c) && (4 * c <? 4 * v + up).

(** The integer with the fewest significant digits that is read as the
    double [v] of [d] digits, the nearest to [v] when there are several:
    the search goes through the numbers of [k], [k + 1], ... significant
    digits next to [v]. *)
Fixpoint shortest (fuel : nat) (k d v : Z) : Z :=
  match fuel with
  | O => v
  | S fuel' =>
      let t := 10 ^ (d - k) in
      let below := v / t * t in
      let above := below + t in
      match reads_as v below, reads_as v above with
      | true, true => if v - below <=? above - v then below else above
      | true, false => below
      | false, true => above
      | false, false => shortest fuel' (k + 1) d v
      end
  end.

(** A numeral without the zeros at its end. *)
Fixpoint strip_zeros (s : string) : string :=
  match s with
  | EmptyString => EmptyString
  | String a rest =>
      let rest' := strip_zeros rest in
      if Ascii.eqb a "0" && String.eqb rest' EmptyString then EmptyString else String a rest'
  end.

(** The exponent form of a numeral of more than 21 digits: [d.ddde+n]. *)
Definition exponent_text (digits : string) : string :=
  let e := pretty (Z.of_nat (String.length digits) - 1) in
  match strip_zeros digits with
  | String a EmptyString => String a ("e+" +:+ e)
  | String a rest => String a ("." +:+ rest +:+ "e+" +:+ e)
  | EmptyString => digits
  end.

(** [String(a)] for the number that the integer [a >= 0] denotes: up to
    2^53 its decimal numeral; beyond, where not every integer is a number,
    the shortest numeral that is read as the same double, with zeros for
    the digits left out, in exponent form from 10^21 on. *)
Definition magnitude_text (a : Z) : string :=
  if a <? 2 ^ 53 then pretty a
  else
    match nearest_double a with
    | None => "Infinity"
    | Some v =>
        let d := Z.of_nat (String.length (pretty v)) in
        let digits := pretty (shortest (Z.to_nat d) 1 d v) in
        if (String.length digits <=? 21)%nat then digits else exponent_text digits
    end.

(** [String(n)] for the number that the integer [n] denotes. *)
Definition number_text (n : Z) : string :=
  if n <? 0 then "-" +:+ magnitude_text (- n) else magnitude_text n.
Arguments number_text : simpl never.

(** The conversion to a string done by a template literal and by
    [new Error(v)].  A number prints as [number_text] says; an array joins
    its items with commas ([null] and
    [undefined] items print as nothing); an object prints as
    [[object Object]] unless it has an own [toString] property, which a JSON
    value cannot make callable, so the conversion throws. *)
Fixpoint to_string (v : JsValue) : Completion string :=
  match v with
  | JUndefined => Normal "undefined"
  | JNull => Normal "null"
  | JBool true => Normal "true"
  | JBool false => Normal "false"
  | JNum n => Normal (number_text n)
  | JStr s => Normal s
  | JArr items =>
      (fix join (l : list JsValue) : Completion string :=
         match l with
         | [] => Normal EmptyString
         | x :: rest =>
             completion_bind
               (match x with
                | JUndefined | JNull => Normal EmptyString
                | _ => to_string x
                end)
               (λ s, match rest with
                     | [] => Normal s
                     | _ => completion_bind (join rest) (λ r, Normal (s +:+ "," +:+ r))
                     end)
         end) items
  | JObj props =>
      if has_own props "toString"
      then Thrown (TypeError "Cannot convert object to primitive value")
      else Normal "[object Object]"
  end.

(** ** External calls and programs *)

(** The [options] given to [fetch]; [opt_body] is the JSON text passed as
    [options.body], absent when the property is not set. *)
Record FetchOptions : Type := mkOptions {
  opt_method : string;
  opt_headers : list (string * string);
  opt_body : option JsValue
}.

(** What the handler reads of a [fetch] response: [response.ok] and the
    outcome of [response.json()]. *)
Record FetchResponse : Type := mkFetchResponse {
  resp_ok : bool;
  resp_json : Completion JsValue
}.

Record SignOptions : Type := mkSignOptions { expiresIn : string }.

(** The calls that leave the file. *)
Inductive Call : Type :=
| fetch (url : string) (options : FetchOptions)
| bcrypt_hash (s : JsValue) (salt : Z)
| bcrypt_compare (s : JsValue) (hash : JsValue)
| crypto_randomUUID
| jwt_sign (payload : JsValue) (secretOrPrivateKey : option string) (options : SignOptions)
| console_error (label : string) (error : JsError).

(** What each call answers with when it does not throw.  A signed token is
    kept as the JSON structure its compact form serialises. *)
Definition Answer (c : Call) : Type :=
  match c with
  | fetch _ _ => FetchResponse
  | bcrypt_hash _ _ => string
  | bcrypt_compare _ _ => bool
  | crypto_randomUUID => string
  | jwt_sign _ _ _ => JsValue
  | console_error _ _ => unit
  end.

(** A program returns, throws, or performs a call and continues with the
    way the call completed. *)
Inductive Prog (A : Type) : Type :=
| Ret (a : A)
| Throw (e : JsError)
| Vis (c : Call) (k : Completion (Answer c) → Prog A).
Arguments Ret {A} a.
Arguments Throw {A} e.
Arguments Vis {A} c k.

Fixpoint bind {A B} (p : Prog A) (f : A → Prog B) : Prog B :=
  match p with
  | Ret a => f a
  | Throw e => Throw e
  | Vis c k => Vis c (λ r, bind (k r) f)
  end.

#[global] Instance Prog_ret : MRet Prog := @Ret.
#[global] Instance Prog_bind : MBind Prog := λ A B f p, bind p f.

(** [try { p } catch (error) { h error }]; a [return] inside [p] leaves the
    statement. *)
Fixpoint try_catch {A} (p : Prog A) (h : JsError → Prog A) : Prog A :=
  match p with
  | Ret a => Ret a
  | Throw e => h e
  | Vis c k => Vis c (λ r, try_catch (k r) h)
  end.

(** A completed evaluation used as a statement. *)
Definition lift {A} (c : Completion A) : Prog A :=
  match c with
  | Normal a => Ret a
  | Thrown e => Throw e
  end.

(** [await c]: perform the call; a rejection is thrown. *)
Definition await (c : Call) : Prog (Answer c) := Vis c lift.

(** ** The module *)

(** [s] between double quotes, as it stands inside a single-quoted literal. *)
Definition quoted (s : string) : string :=
  String "034"%char (s +:+ String "034"%char EmptyString).

(** [process.env], read when the module is loaded: a variable is a string or
    is not set. *)
Record Config : Type := mkConfig {
  UPSTASH_KV_REST_API_URL : option string;
  UPSTASH_KV_REST_API_TOKEN : option string;
  JWT_SECRET : option string
}.

(** An environment variable inside a template literal. *)
Definition env_text (v : option string) : string := default "undefined" v.

Record Request : Type := mkRequest { req_method : string; req_body : JsValue }.

(** [res.status(status).json(json)]. *)
Record HttpResponse : Type := mkResponse { status : Z; json : JsValue }.

(** [`users:${name}`], the key of a user's record. *)
Definition userKey (name : string) : string := "users:" +:+ name.

Section Auth.
Variable cfg : Config.

(** The call [fetch(url, options)] that [kvRequest(method, path, body)]
    makes. *)
Definition kv_call (method path : string) (body : JsValue) : Call :=
  let headers :=
    [("Authorization", "Bearer " +:+ env_text (UPSTASH_KV_REST_API_TOKEN cfg));
     ("Content-Type", "application/json")] in
  let url := env_text (UPSTASH_KV_REST_API_URL cfg) +:+ path in
  let options :=
    {| opt_method := method;
       opt_headers := headers;
       opt_body := if is_truthy body then Some body else None |} in
  fetch url options.

Definition kvRequest (method path : string) (body : JsValue) : Prog JsValue :=
  response ← await (kv_call method path body);
  data ← lift (resp_json response);
  if negb (resp_ok response) then
    e ← lift (get_prop data "error");
    message ← lift (to_string (if is_truthy e then e else JStr "KV operation failed"));
    Throw (Error message)
  else Ret data.

Definition register (username password : JsValue) : Prog HttpResponse :=
  name ← lift (to_string username);
  existingUser ← kvRequest "GET" ("/" +:+ userKey name) JNull;
  result ← lift (get_prop existingUser "result");
  if is_truthy result then
    Ret (mkResponse 409 (JObj [("error", JStr "User already exists.")]))
  else
    hashedPassword ← await (bcrypt_hash password 10);
    userId ← await crypto_randomUUID;
    _ ← kvRequest "SET" ("/" +:+ userKey name)
          (JObj [("userId", JStr userId); ("hashedPassword", JStr hashedPassword)]);
    Ret (mkResponse 201 (JObj [("message", JStr "User registered successfully.");
                               ("userId", JStr userId)])).

Definition login (username password : JsValue) : Prog HttpResponse :=
  name ← lift (to_string username);
  userData ← kvRequest "GET" ("/" +:+ userKey name) JNull;
  result ← lift (get_prop userData "result");
  if negb (is_truthy result) then
    Ret (mkResponse 401 (JObj [("error", JStr "Invalid username or password.")]))
  else
    let userId := prop result "userId" in
    let hashedPassword := prop result "hashedPassword" in
    isPasswordValid ← await (bcrypt_compare password hashedPassword);
    if negb isPasswordValid then
      Ret (mkResponse 401 (JObj [("error", JStr "Invalid username or password.")]))
    else
      token ← await (jwt_sign (JObj [("userId", userId); ("username", username)])
                              (JWT_SECRET cfg) (mkSignOptions "1h"));
      Ret (mkResponse 200 (JObj [("message", JStr "Login successful.");
                                 ("token", token);
                                 ("userId", userId)])).

(** The handler once [action], [username] and [password] are read from
    the body: the check of the two credentials and the [try] block, whose
    branches are [register] and [login]. *)
Definition serve (action username password : JsValue) : Prog HttpResponse :=
  if negb (is_truthy username) || negb (is_truthy password) then
    Ret (mkResponse 400 (JObj [("error", JStr "Username and password are required.")]))
  else
    try_catch
      (if strict_eq_str action "register" then register username password
       else if strict_eq_str action "login" then login username password
       else Ret (mkResponse 400
                   (JObj [("error",
                           JStr ("Invalid action specified. Use " +:+ quoted "register"
                                 +:+ " or " +:+ quoted "login" +:+ "."))])))
      (λ error,
         _ ← await (console_error "Authentication API error:" error);
         Ret (mkResponse 500
                (JObj [("error", JStr "Internal server error during authentication.");
                       ("details", JStr (error_message error))]))).

(** [module.exports]: the handler of the endpoint.  The destructuring of
    [req.body] stands before the [try] block. *)
Definition handler (req : Request) : Prog HttpResponse :=
  if negb (String.eqb (req_method req) "POST") then
    Ret (mkResponse 405 (JObj [("error", JStr "Method Not Allowed")]))
  else
    body ← lift (destructure "req.body" "action" (req_body req));
    serve (prop body "action") (prop body "username") (prop body "password").
End Auth.

(** ** Running a program in a world *)

(** A world answers every call, and changes by answering it. *)
Definition Externals (W : Type) : Type :=
  ∀ c : Call, W → Completion (Answer c) * W.

(** The outcome of a run, the world it leaves and the calls it made, in
    order. *)
Record Run (A W : Type) : Type := mkRun {
  outcome : Completion A;
  final : W;
  calls : list Call
}.
Arguments mkRun {A W} outcome final calls.
Arguments outcome {A W} r.
Arguments final {A W} r.
Arguments calls {A W} r.

Fixpoint run {W A} (X : Externals W) (p : Prog A) (w : W) : Run A W :=
  match p with
  | Ret a => mkRun (Normal a) w []
  | Throw e => mkRun (Thrown e) w []
  | Vis c k =>
      let t := run X (k (X c w).1) (X c w).2 in
      mkRun (outcome t) (final t) (c :: calls t)
  end.

(** The status of the response, when the handler answered. *)
Definition answer_status (c : Completion HttpResponse) : option Z :=
  match c with
  | Normal response => Some (status response)
  | Thrown _ => None
  end.

(** A call that writes to the store. *)
Definition is_store_write (c : Call) : bool :=
  match c with
  | fetch _ options => String.eqb (opt_method options) "SET"
  | _ => false
  end.

(** ** A reference world *)

Definition typeof (v : JsValue) : string :=
  match v with
  | JUndefined => "undefined"
  | JBool _ => "boolean"
  | JNum _ => "number"
  | JStr _ => "string"
  | JNull | JArr _ | JObj _ => "object"
  end.

Fixpoint string_take (n : nat) (s : string) : string :=
  match n, s with
  | S n', String a s' => String a (string_take n' s')
  | _, _ => EmptyString
  end.

Section Reference.
(** The parts of the libraries that are not computed here: the [n]-th
    random string the process draws, the one-way core of the password
    digest (of a salt and a plaintext) and the keyed signature (of a
    secret and a payload). *)
Variable random : nat → string.
Variable digest_core : string → string → string.
Variable mac : string → JsValue → string.

(** Modelled from the spec: the remote store behind [fetch] (section 4.1),
    which is not part of the repository.  [GET] answers the value last set
    at the same address, or [null]; [SET] stores the request body; both
    answer with a success status.  The store is a map from the request URL
    to the value; it does not look at the headers of a request. *)
Definition store_fetch (url : string) (options : FetchOptions) (kv : gmap string JsValue)
  : Completion FetchResponse * gmap string JsValue :=
  if String.eqb (opt_method options) "GET" then
    (Normal (mkFetchResponse true (Normal (JObj [("result", default JNull (kv !! url))]))), kv)
  else if String.eqb (opt_method options) "SET" then
    match opt_body options with
    | Some value =>
        (Normal (mkFetchResponse true (Normal (JObj [("result", JStr "OK")]))),
         <[url := value]> kv)
    | None =>
        (Normal (mkFetchResponse false (Normal (JObj [("error", JStr "ERR missing value")]))), kv)
    end
  else
    (Normal (mkFetchResponse false (Normal (JObj [("error", JStr "ERR unknown command")]))), kv).

Definition salt_length : nat := 22.

(** A salt of the fixed length, cut from a random string. *)
Definition fit_salt (r : string) : string :=
  string_take salt_length (r +:+ "......................").

(** Modelled from the spec: the Credential Hasher (section 4.2), which is
    the library [bcryptjs].  [hash] produces a digest that embeds its own
    salt: the salt, followed by the one-way core of salt and plaintext. *)
Definition hasher_hash (salt plaintext : string) : string :=
  salt +:+ digest_core salt plaintext.

(** Modelled from the spec: [verify] of the Credential Hasher (section
    4.2) recomputes the digest with the salt embedded in [digest] and
    compares; any mismatch, also a malformed digest, gives [false]. *)
Definition hasher_verify (plaintext digest : string) : bool :=
  String.eqb digest (hasher_hash (string_take salt_length digest) plaintext).

(** Modelled from the spec: the Token Issuer (section 4.3), which is the
    library [jsonwebtoken].  The payload of a token is the given payload
    with the issuance time [iat] and the expiry [exp], one hour later; the
    token carries a signature of that payload under the secret.  An
    absent secret is refused (section 6), as is any other time span than
    the reference policy's. *)
Definition issuer_issue (payload : JsValue) (secret : option string) (options : SignOptions)
    (now : Z) : Completion JsValue :=
  match secret with
  | None => Thrown (Error "secretOrPrivateKey must have a value")
  | Some key =>
      if String.eqb key EmptyString
      then Thrown (Error "secretOrPrivateKey must have a value")
      else
        match payload with
        | JObj props =>
            if String.eqb (expiresIn options) "1h" then
              let claims := JObj (props ++ [("iat", JNum now); ("exp", JNum (now + 3600))]) in
              Normal (JObj [("payload", claims); ("signature", JStr (mac key claims))])
            else Thrown (Error "unsupported time span")
        | _ => Thrown (Error "invalid expiresIn option for non-object payload")
        end
  end.

(** Modelled from the spec: [verify] of the Token Issuer (section 4.3)
    fails when the signature does not match, when the payload is
    malformed, or when [now > expiresAt]; otherwise it gives the
    [{userId, username}] of the payload. *)
Definition issuer_verify (secret : string) (token : JsValue) (now : Z)
  : option (JsValue * JsValue) :=
  let claims := prop token "payload" in
  match prop token "signature", prop claims "exp" with
  | JStr signature, JNum expiresAt =>
      if negb (String.eqb signature (mac secret claims)) then None
      else if expiresAt <? now then None
      else Some (prop claims "userId", prop claims "username")
  | _, _ => None
  end.

(** The state of the reference world: the contents of the remote store,
    the number of random strings drawn so far, the clock in seconds, and
    what was written to the console. *)
Record World : Type := mkWorld {
  kv : gmap string JsValue;
  draws : nat;
  clock : Z;
  console : list (string * JsError)
}.

(** What the hasher throws when it is not given strings. *)
Definition illegal_arguments (a b : string) : JsError :=
  Error ("Illegal arguments: " +:+ a +:+ ", " +:+ b).

(** Modelled from the spec: the world outside the file, which is not part of
    the repository.  [fetch] reaches the store of section 4.1; [bcrypt.hash]
    draws a fresh salt and [bcrypt.compare] verifies, as the hasher of
    section 4.2, both on strings only; [crypto.randomUUID] draws a random
    string; [jwt.sign] is the issuer of section 4.3, at the time of the
    clock; [console.error] appends to the console. *)
Definition reference : Externals World := λ c,
  match c as c0 return World → Completion (Answer c0) * World with
  | fetch url options => λ w,
      let r := store_fetch url options (kv w) in
      (r.1, mkWorld r.2 (draws w) (clock w) (console w))
  | bcrypt_hash s _ => λ w,
      match s with
      | JStr plaintext =>
          (Normal (hasher_hash (fit_salt (random (draws w))) plaintext),
           mkWorld (kv w) (S (draws w)) (clock w) (console w))
      | _ => (Thrown (illegal_arguments (typeof s) "number"), w)
      end
  | bcrypt_compare s hash => λ w,
      match s, hash with
      | JStr plaintext, JStr digest => (Normal (hasher_verify plaintext digest), w)
      | _, _ => (Thrown (illegal_arguments (typeof s) (typeof hash)), w)
      end
  | crypto_randomUUID => λ w,
      (Normal (random (draws w)), mkWorld (kv w) (S (draws w)) (clock w) (console w))
  | jwt_sign payload secret options => λ w,
      (issuer_issue payload secret options (clock w), w)
  | console_error label error => λ w,
      (Normal (), mkWorld (kv w) (draws w) (clock w) (console w ++ [(label, error)]))
  end.
End Reference.

(** The instance used in the examples. *)
Definition sample_random (n : nat) : string := "r" +:+ pretty n.
Definition sample_core (salt plaintext : string) : string := "#" +:+ plaintext +:+ "#" +:+ salt.
Definition sample_mac (secret : string) (claims : JsValue) : string :=
  match to_string (prop claims "userId") with
  | Normal s => secret +:+ "/" +:+ s
  | Thrown _ => secret
  end.

Definition sample : Externals World := reference sample_random sample_core sample_mac.

Definition sample_config : Config :=
  mkConfig (Some "https://kv.example") (Some "store-token") (Some "signing-secret").

Definition empty_world : World := mkWorld ∅ 0 1700000000 [].

Definition post (action username password : JsValue) : Request :=
  mkRequest "POST" (JObj [("action", action); ("username", username); ("password", password)]).

(** ** Vocabulary of the statements *)

(** The request is a [POST] whose body can be destructured, and [action],
    [username] and [password] are what the handler reads from it. *)
Definition carries (req : Request) (action username password : JsValue) : Prop :=
  req_method req = "POST" ∧
  destructure "req.body" "action" (req_body req) = Normal (req_body req) ∧
  prop (req_body req) "action" = action ∧
  prop (req_body req) "username" = username ∧
  prop (req_body req) "password" = password.

(** The store read and the store write for the key of the user [name]. *)
Definition store_get (cfg : Config) (name : string) : Call :=
  kv_call cfg "GET" ("/" +:+ userKey name) JNull.

Definition store_set (cfg : Config) (name : string) (value : JsValue) : Call :=
  kv_call cfg "SET" ("/" +:+ userKey name) value.

(** The value persisted for a user. *)
Definition credential_record (userId hashedPassword : string) : JsValue :=
  JObj [("userId", JStr userId); ("hashedPassword", JStr hashedPassword)].

(** A store answer with a success status and the JSON [data]. *)
Definition answered (data : JsValue) : Completion FetchResponse :=
  Normal (mkFetchResponse true (Normal data)).

Definition invalid_action_message : string :=
  "Invalid action specified. Use " +:+ quoted "register" +:+ " or " +:+ quoted "login" +:+ ".".

(** Two programs that differ at most in the plaintext they hand to the
    hasher: they return and throw the same, make the same calls with the
    same arguments, and continue alike on every answer. *)
Inductive blind {A : Type} : Prog A → Prog A → Prop :=
| blind_ret (a : A) : blind (Ret a) (Ret a)
| blind_throw (e : JsError) : blind (Throw e) (Throw e)
| blind_vis (c : Call) (k1 k2 : Completion (Answer c) → Prog A) :
    (∀ r, blind (k1 r) (k2 r)) → blind (Vis c k1) (Vis c k2)
| blind_hash (s1 s2 : JsValue) (salt : Z) (k1 k2 : Completion string → Prog A) :
    (∀ r, blind (k1 r) (k2 r)) →
    blind (Vis (bcrypt_hash s1 salt) k1) (Vis (bcrypt_hash s2 salt) k2)
| blind_compare (s1 s2 hash : JsValue) (k1 k2 : Completion bool → Prog A) :
    (∀ r, blind (k1 r) (k2 r)) →
    blind (Vis (bcrypt_compare s1 hash) k1) (Vis (bcrypt_compare s2 hash) k2).

(** A call with the plaintext given to the hasher struck out. *)
Definition redact (c : Call) : Call :=
  match c with
  | bcrypt_hash _ salt => bcrypt_hash JUndefined salt
  | bcrypt_compare _ hash => bcrypt_compare JUndefined hash
  | _ => c
  end.

(** A hasher whose answers tell nothing of the plaintext. *)
Definition hasher_oblivious {W} (X : Externals W) : Prop :=
  (∀ s1 s2 salt w, X (bcrypt_hash s1 salt) w = X (bcrypt_hash s2 salt) w) ∧
  (∀ s1 s2 hash w, X (bcrypt_compare s1 hash) w = X (bcrypt_compare s2 hash) w).

(** The store's read-after-write guarantee for the key of [name]: in the
    world [w], reading the key gives the value that was written to it by
    the calls [written]. *)
Definition read_after_write {W} (X : Externals W) (cfg : Config) (name : string)
    (written : list Call) (w : W) : Prop :=
  ∀ value, store_set cfg name value ∈ written →
    ∃ data, (X (store_get cfg name) w).1 = answered data ∧
            get_prop data "result" = Normal value.

(** The hasher accepts, for [password], every digest it produced for it. *)
Definition verify_accepts {W} (X : Externals W) (password : JsValue) : Prop :=
  ∀ (hash : string) (w w' : W),
    (X (bcrypt_hash password 10) w).1 = Normal hash →
    (X (bcrypt_compare password (JStr hash)) w').1 = Normal true.

(** The issuer returns a token for every object payload, under the
    configured secret and the one-hour policy. *)
Definition issuer_returns {W} (X : Externals W) (cfg : Config) : Prop :=
  ∀ (props : list (string * JsValue)) (w : W),
    ∃ token, (X (jwt_sign (JObj props) (JWT_SECRET cfg) (mkSignOptions "1h")) w).1 = Normal token.

(** The statement that login follows registration with nothing assumed of
    the issuer: after a registration answered 201 with [userId], in a world
    where the store still gives what was written and the hasher accepts its
    own digests, the login with the same credentials is answered 200 with a
    token and the same [userId]. *)
Definition login_follows_register {W} (X : Externals W) (cfg : Config) : Prop :=
  ∀ (w0 w1 : W) (req_r req_l : Request) (username password : JsValue)
    (name userId : string),
    carries req_r (JStr "register") username password →
    carries req_l (JStr "login") username password →
    is_truthy username = true →
    is_truthy password = true →
    to_string username = Normal name →
    outcome (run X (handler cfg req_r) w0) =
      Normal (mkResponse 201 (JObj [("message", JStr "User registered successfully.");
                                    ("userId", JStr userId)])) →
    read_after_write X cfg name (calls (run X (handler cfg req_r) w0)) w1 →
    verify_accepts X password →
    ∃ token,
      outcome (run X (handler cfg req_l) w1) =
        Normal (mkResponse 200 (JObj [("message", JStr "Login successful.");
                                      ("token", token);
                                      ("userId", JStr userId)])).

(** Configurations and states of the examples. *)
Definition no_secret_config : Config :=
  mkConfig (Some "https://kv.example") (Some "store-token") None.

Definition no_credentials_config : Config :=
  mkConfig (Some "https://kv.example") None None.

Definition register_alice : Request := post (JStr "register") (JStr "alice") (JStr "s3cret").
Definition login_alice : Request := post (JStr "login") (JStr "alice") (JStr "s3cret").

(** The reference world after alice registered under [cfg]. *)
Definition alice_registered (cfg : Config) : World :=
  final (run sample (handler cfg register_alice) empty_world).

(** ** Worlds and assumptions for the store's failures *)

(** The sample world with a store that gives the same answer to every
    [fetch]. *)
Definition store_answering (answer : Completion FetchResponse) : Externals World := λ c,
  match c as c0 return World → Completion (Answer c0) * World with
  | fetch _ _ => λ w, (answer, w)
  | c0 => sample c0
  end.

(** [console.error] returns. *)
Definition console_returns {W} (X : Externals W) : Prop :=
  ∀ label e w, (X (console_error label e) w).1 = Normal ().


(** * The proxy endpoints

    [api/extract-text.js], [api/analyze-text.js] and [api/generate-audio.js]
    forward one request each to a remote service.  They run on the same
    platform as the authentication endpoint, with two more kinds of
    external call ([console.log], [console.warn]), a [fetch] whose answer
    also has a status and a binary body, and string operations of the
    language that the byte strings of this development do not determine. *)

Module Proxy.

(** The string operations of JavaScript the handlers use, on strings of
    UTF-16 code units: [s.length], [s.trim()], [s.substring(from, to)],
    [s[0]] of a non-empty string, and [Number(s) > bound]. *)
Record StringOps : Type := mkStringOps {
  code_units : string → Z;
  trim : string → string;
  substring : Z → Z → string → string;
  first_unit : string → string;
  number_exceeds : string → Z → bool
}.

(** An argument of a [console] call: a string, the text
    [JSON.stringify(v, null, 2)] of a value, represented by the value, or a
    caught error. *)
Inductive Logged : Type :=
| Text (s : string)
| JsonText (v : JsValue)
| Caught (e : JsError).

(** The second argument of [fetch]; [init_body] is the value whose JSON text
    is sent. *)
Record FetchInit : Type := mkInit {
  init_method : string;
  init_headers : list (string * string);
  init_body : JsValue
}.

(** What the handlers read of the answer of [fetch]: [ok], [status], and the
    outcomes of [json()] and of [arrayBuffer()], the latter as bytes. *)
Record Upstream : Type := mkUpstream {
  up_ok : bool;
  up_status : Z;
  up_json : Completion JsValue;
  up_arrayBuffer : Completion string
}.

Inductive Call : Type :=
| console_log (message : string)
| console_warn (message : string)
| console_error (args : list Logged)
| fetch (url : string) (init : FetchInit).

Definition Answer (c : Call) : Type :=
  match c with
  | fetch _ _ => Upstream
  | _ => unit
  end.

Inductive Prog (A : Type) : Type :=
| Ret (a : A)
| Throw (e : JsError)
| Vis (c : Call) (k : Completion (Answer c) → Prog A).
Arguments Ret {A} a.
Arguments Throw {A} e.
Arguments Vis {A} c k.

Fixpoint bind {A B} (p : Prog A) (f : A → Prog B) : Prog B :=
  match p with
  | Ret a => f a
  | Throw e => Throw e
  | Vis c k => Vis c (λ r, bind (k r) f)
  end.

#[global] Instance Prog_ret : MRet Prog := @Ret.
#[global] Instance Prog_bind : MBind Prog := λ A B f p, bind p f.

Fixpoint try_catch {A} (p : Prog A) (h : JsError → Prog A) : Prog A :=
  match p with
  | Ret a => Ret a
  | Throw e => h e
  | Vis c k => Vis c (λ r, try_catch (k r) h)
  end.

Definition lift {A} (c : Completion A) : Prog A :=
  match c with
  | Normal a => Ret a
  | Thrown e => Throw e
  end.

Definition await (c : Call) : Prog (Answer c) := Vis c lift.

Definition Externals (W : Type) : Type :=
  ∀ c : Call, W → Completion (Answer c) * W.

Record Run (A W : Type) : Type := mkRun {
  outcome : Completion A;
  final : W;
  calls : list Call
}.
Arguments mkRun {A W} outcome final calls.
Arguments outcome {A W} r.
Arguments final {A W} r.
Arguments calls {A W} r.

Fixpoint run {W A} (X : Externals W) (p : Prog A) (w : W) : Run A W :=
  match p with
  | Ret a => mkRun (Normal a) w []
  | Throw e => mkRun (Thrown e) w []
  | Vis c k =>
      let t := run X (k (X c w).1) (X c w).2 in
      mkRun (outcome t) (final t) (c :: calls t)
  end.

(** ** Values and replies *)

(** [v.length] of a value that is neither [null] nor [undefined]. *)
Definition length_of (ops : StringOps) (v : JsValue) : JsValue :=
  match v with
  | JStr s => JNum (code_units ops s)
  | JArr items => JNum (Z.of_nat (length items))
  | JObj props => own_prop props "length"
  | _ => JUndefined
  end.

(** [v?.name]. *)
Definition opt_prop (v : JsValue) (name : string) : JsValue :=
  match v with
  | JUndefined | JNull => JUndefined
  | _ => prop v name
  end.

(** [v?.[0]]. *)
Definition opt_first (ops : StringOps) (v : JsValue) : JsValue :=
  match v with
  | JArr (x :: _) => x
  | JObj props => own_prop props "0"
  | JStr s => if String.eqb s EmptyString then JUndefined else JStr (first_unit ops s)
  | _ => JUndefined
  end.

(** [a || b]. *)
Definition or_else (a b : JsValue) : JsValue := if is_truthy a then a else b.

(** [v > bound] for a number [bound]: [undefined] compares as [NaN],
    [null] and booleans as 0 and 1, a string by its numeric value, an array
    or an object by the numeric value of its string form. *)
Definition exceeds (ops : StringOps) (v : JsValue) (bound : Z) : Completion bool :=
  match v with
  | JUndefined => Normal false
  | JNull => Normal (bound <? 0)
  | JBool b => Normal (bound <? (if b then 1 else 0))
  | JNum n => Normal (bound <? n)
  | JStr s => Normal (number_exceeds ops s bound)
  | JArr _ | JObj _ =>
      completion_bind (to_string v) (λ s, Normal (number_exceeds ops s bound))
  end.

(** What a handler has sent when it returns: the headers it set, the
    status, and the body given to [end()], [json(v)] or [send(bytes)]. *)
Inductive Body : Type :=
| NoBody
| JsonBody (v : JsValue)
| Bytes (b : string).

Record Reply : Type := mkReply {
  reply_headers : list (string * string);
  reply_status : Z;
  reply_body : Body
}.

(** A variable of [process.env]: a string, or [undefined] when not set. *)
Definition env_value (v : option string) : JsValue :=
  match v with
  | Some s => JStr s
  | None => JUndefined
  end.

(** The three [response.setHeader] calls at the head of each handler. *)
Definition cors_headers : list (string * string) :=
  [("Access-Control-Allow-Origin", "*");
   ("Access-Control-Allow-Methods", "POST, OPTIONS");
   ("Access-Control-Allow-Headers", "Content-Type")].

(** ** [api/extract-text.js] *)

Module ExtractText.
Section Handler.
Variable ops : StringOps.
(** [process.env.GOOGLE_API_KEY], read when a request is served. *)
Variable GOOGLE_API_KEY : option string.

Definition handler (request : Request) : Prog Reply :=
  let headers := cors_headers in
  if String.eqb (req_method request) "OPTIONS" then
    _ ← await (console_log "Handling OPTIONS preflight request.");
    Ret (mkReply headers 200 NoBody)
  else if negb (String.eqb (req_method request) "POST") then
    _ ← await (console_warn ("Method Not Allowed: Received a " +:+ req_method request
                             +:+ " request."));
    Ret (mkReply headers 405 (JsonBody (JObj [("error", JStr "Method Not Allowed")])))
  else
    _ ← await (console_log "--- [api/extract-text] Function Invoked ---");
    try_catch
      (let apiKey := env_value GOOGLE_API_KEY in
       if negb (is_truthy apiKey) then
         _ ← await (console_error
                      [Text "FATAL: GOOGLE_API_KEY environment variable not set."]);
         Ret (mkReply headers 500
                (JsonBody (JObj [("error", JStr "API key is not configured on the server.")])))
       else
         _ ← await (console_log "Successfully loaded GOOGLE_API_KEY.");
         body ← lift (destructure "request.body" "pdfData" (req_body request));
         let pdfData := prop body "pdfData" in
         if negb (is_truthy pdfData) then
           _ ← await (console_warn
                        "Bad Request: No PDF data was provided in the request body.");
           Ret (mkReply headers 400 (JsonBody (JObj [("error", JStr "No PDF data provided.")])))
         else
           size ← lift (to_string (length_of ops pdfData));
           _ ← await (console_log ("Received PDF data of length: " +:+ size
                                   +:+ " characters."));
           key ← lift (to_string apiKey);
           let visionApiUrl :=
             "https://vision.googleapis.com/v1/files:annotate?key=" +:+ key in
           let requestBody :=
             JObj [("requests",
                    JArr [JObj [("inputConfig",
                                 JObj [("content", pdfData);
                                       ("mimeType", JStr "application/pdf")]);
                                ("features",
                                 JArr [JObj [("type", JStr "DOCUMENT_TEXT_DETECTION")]])]])] in
           _ ← await (console_log
                        "Constructed request for Google Vision API. Preparing to send...");
           visionResponse ← await (fetch visionApiUrl
                                     (mkInit "POST" [("Content-Type", "application/json")]
                                        requestBody));
           _ ← await (console_log ("Received response from Google Vision API with status: "
                                   +:+ number_text (up_status visionResponse)));
           if negb (up_ok visionResponse) then
             errorData ← lift (up_json visionResponse);
             _ ← await (console_error
                          [Text "Google Vision API Error Response:"; JsonText errorData]);
             error ← lift (get_prop errorData "error");
             let errorMessage :=
               or_else (opt_prop error "message")
                       (JStr "An unknown error occurred with the Vision API.") in
             message ← lift (to_string errorMessage);
             Ret (mkReply headers (up_status visionResponse)
                    (JsonBody (JObj [("error",
                                      JStr ("Vision API request failed: " +:+ message))])))
           else
             visionData ← lift (up_json visionResponse);
             _ ← await (console_log
                          "Successfully parsed Vision API response. Sending data to frontend.");
             Ret (mkReply headers 200 (JsonBody visionData)))
      (λ error,
         _ ← await (console_error
                      [Text "Internal Server Error in extract-text function:"; Caught error]);
         Ret (mkReply headers 500
                (JsonBody (JObj [("error", JStr "An internal server error occurred.")])))).
End Handler.
End ExtractText.
(** ** [api/analyze-text.js] *)

Module AnalyzeText.
Section Handler.
Variable ops : StringOps.
(** [process.env.GOOGLE_API_KEY], read when a request is served. *)
Variable GOOGLE_API_KEY : option string.

(** [typeof prompt !== 'string' || prompt.trim().length === 0]. *)
Definition not_a_prompt (prompt : JsValue) : bool :=
  match prompt with
  | JStr s => String.eqb (trim ops s) EmptyString
  | _ => true
  end.

(** [candidates?.[0]?.content?.parts?.[0]?.text]. *)
Definition first_text (candidates : JsValue) : JsValue :=
  opt_prop
    (opt_first ops (opt_prop (opt_prop (opt_first ops candidates) "content") "parts"))
    "text".

(** [prompt.substring(0, 80)] of a string [prompt]. *)
Definition prompt_start (prompt : JsValue) : string :=
  match prompt with
  | JStr s => substring ops 0 80 s
  | _ => EmptyString
  end.

Definition handler (request : Request) : Prog Reply :=
  let headers := cors_headers in
  if String.eqb (req_method request) "OPTIONS" then
    _ ← await (console_log "Handling OPTIONS preflight request for analyze-text.");
    Ret (mkReply headers 200 NoBody)
  else if negb (String.eqb (req_method request) "POST") then
    _ ← await (console_warn ("Method Not Allowed: Received a " +:+ req_method request
                             +:+ " request."));
    Ret (mkReply headers 405 (JsonBody (JObj [("error", JStr "Method Not Allowed")])))
  else
    _ ← await (console_log "--- [api/analyze-text] Function Invoked ---");
    try_catch
      (let apiKey := env_value GOOGLE_API_KEY in
       if negb (is_truthy apiKey) then
         _ ← await (console_error
                      [Text "FATAL: GOOGLE_API_KEY environment variable not set."]);
         Ret (mkReply headers 500
                (JsonBody (JObj [("error", JStr "API key is not configured on the server.")])))
       else
         _ ← await (console_log "Successfully loaded GOOGLE_API_KEY.");
         body ← lift (destructure "request.body" "prompt" (req_body request));
         let prompt := prop body "prompt" in
         if negb (is_truthy prompt) || not_a_prompt prompt then
           _ ← await (console_warn "Bad Request: No valid prompt was provided.");
           Ret (mkReply headers 400
                  (JsonBody (JObj [("error", JStr "A valid text prompt is required.")])))
         else
           _ ← await (console_log ("Received prompt starting with: "
                                   +:+ quoted (prompt_start prompt +:+ "...")));
           key ← lift (to_string apiKey);
           let geminiApiUrl :=
             "https://generativelanguage.googleapis.com/v1beta/models/gemini-2.5-flash-preview-05-20:generateContent?key="
             +:+ key in
           let requestBody :=
             JObj [("contents",
                    JArr [JObj [("parts", JArr [JObj [("text", prompt)]])]])] in
           _ ← await (console_log "Constructed request for Gemini API. Preparing to send...");
           geminiResponse ← await (fetch geminiApiUrl
                                     (mkInit "POST" [("Content-Type", "application/json")]
                                        requestBody));
           _ ← await (console_log ("Received response from Gemini API with status: "
                                   +:+ number_text (up_status geminiResponse)));
           if negb (up_ok geminiResponse) then
             errorData ← lift (up_json geminiResponse);
             _ ← await (console_error
                          [Text "Gemini API Error Response:"; JsonText errorData]);
             error ← lift (get_prop errorData "error");
             let errorMessage :=
               or_else (opt_prop error "message")
                       (JStr "An unknown error occurred with the Gemini API.") in
             message ← lift (to_string errorMessage);
             Ret (mkReply headers (up_status geminiResponse)
                    (JsonBody (JObj [("error",
                                      JStr ("Gemini API request failed: " +:+ message))])))
           else
             geminiData ← lift (up_json geminiResponse);
             candidates ← lift (get_prop geminiData "candidates");
             let generatedText := first_text candidates in
             if negb (is_truthy generatedText) then
               _ ← await (console_error
                            [Text "Gemini API returned no text content. Full Response:";
                             JsonText geminiData]);
               let blockReason :=
                 or_else (opt_prop (prop geminiData "promptFeedback") "blockReason")
                         (JStr "Unknown reason (check server logs)") in
               reason ← lift (to_string blockReason);
               Ret (mkReply headers 500
                      (JsonBody (JObj [("error",
                                        JStr ("The model's response was empty or blocked. Reason: "
                                              +:+ reason))])))
             else
               size ← lift (to_string (length_of ops generatedText));
               _ ← await (console_log
                            ("Successfully received Gemini response. Sending text (length: "
                             +:+ size +:+ ") to frontend."));
               Ret (mkReply headers 200 (JsonBody (JObj [("text", generatedText)]))))
      (λ error,
         _ ← await (console_error
                      [Text "Internal Server Error in analyze-text function:"; Caught error]);
         Ret (mkReply headers 500
                (JsonBody (JObj [("error", JStr "An internal server error occurred.")])))).
End Handler.
End AnalyzeText.

(** ** [api/generate-audio.js] *)

Module GenerateAudio.
Section Handler.
Variable ops : StringOps.
(** [process.env.OPENAI_API_KEY], read when a request is served. *)
Variable OPENAI_API_KEY : option string.

Definition handler (request : Request) : Prog Reply :=
  let headers := cors_headers in
  if String.eqb (req_method request) "OPTIONS" then
    _ ← await (console_log "Handling OPTIONS preflight request for generate-audio.");
    Ret (mkReply headers 200 NoBody)
  else if negb (String.eqb (req_method request) "POST") then
    _ ← await (console_warn ("Method Not Allowed: Received a " +:+ req_method request
                             +:+ " request."));
    Ret (mkReply headers 405 (JsonBody (JObj [("error", JStr "Method Not Allowed")])))
  else
    _ ← await (console_log "--- [api/generate-audio] Function Invoked ---");
    try_catch
      (let apiKey := env_value OPENAI_API_KEY in
       if negb (is_truthy apiKey) then
         _ ← await (console_error
                      [Text "FATAL: OPENAI_API_KEY environment variable not set."]);
         Ret (mkReply headers 500
                (JsonBody (JObj [("error", JStr "API key is not configured on the server.")])))
       else
         _ ← await (console_log "Successfully loaded OPENAI_API_KEY.");
         body ← lift (destructure "request.body" "text" (req_body request));
         let text := prop body "text" in
         let voice := prop body "voice" in
         if negb (is_truthy text) || negb (is_truthy voice) then
           _ ← await (console_warn "Bad Request: Missing text or voice parameter.");
           Ret (mkReply headers 400
                  (JsonBody (JObj [("error",
                                    JStr "Missing required parameters: text and voice.")])))
         else
           tooLong ← lift (exceeds ops (length_of ops text) 4096);
           if (tooLong : bool) then
             size ← lift (to_string (length_of ops text));
             _ ← await (console_warn ("Bad Request: Input text is too long (" +:+ size
                                      +:+ " characters)."));
             size' ← lift (to_string (length_of ops text));
             Ret (mkReply headers 400
                    (JsonBody (JObj [("error",
                                      JStr ("Input text is too long. The maximum is 4096 characters, but this chunk has "
                                            +:+ size' +:+ "."))])))
           else
             size ← lift (to_string (length_of ops text));
             voiceName ← lift (to_string voice);
             _ ← await (console_log
                          ("Received request to generate audio for text chunk (length: "
                           +:+ size +:+ ") with voice: " +:+ voiceName));
             let openaiApiUrl := "https://api.openai.com/v1/audio/speech" in
             let requestBody :=
               JObj [("model", JStr "tts-1"); ("input", text); ("voice", voice);
                     ("response_format", JStr "mp3")] in
             _ ← await (console_log
                          "Constructed request for OpenAI TTS API. Preparing to send...");
             key ← lift (to_string apiKey);
             openaiResponse ← await (fetch openaiApiUrl
                                       (mkInit "POST"
                                          [("Authorization", "Bearer " +:+ key);
                                           ("Content-Type", "application/json")]
                                          requestBody));
             _ ← await (console_log ("Received response from OpenAI API with status: "
                                     +:+ number_text (up_status openaiResponse)));
             if negb (up_ok openaiResponse) then
               errorData ← lift (up_json openaiResponse);
               _ ← await (console_error
                            [Text "OpenAI API Error Response:"; JsonText errorData]);
               error ← lift (get_prop errorData "error");
               let errorMessage :=
                 or_else (opt_prop error "message")
                         (JStr "An unknown error occurred with the OpenAI API.") in
               message ← lift (to_string errorMessage);
               Ret (mkReply headers (up_status openaiResponse)
                      (JsonBody (JObj [("error",
                                        JStr ("OpenAI API request failed: " +:+ message))])))
             else
               audioData ← lift (up_arrayBuffer openaiResponse);
               _ ← await (console_log
                            ("Successfully received audio data (size: "
                             +:+ number_text (Z.of_nat (String.length audioData))
                             +:+ " bytes). Sending to frontend."));
               Ret (mkReply (headers ++ [("Content-Type", "audio/mpeg")]) 200
                      (Bytes audioData)))
      (λ error,
         _ ← await (console_error
                      [Text "Internal Server Error in generate-audio function:"; Caught error]);
         Ret (mkReply headers 500
                (JsonBody (JObj [("error", JStr "An internal server error occurred.")])))).
End Handler.
End GenerateAudio.
End Proxy.

(** The [console] calls return. *)
Definition proxy_console_returns {W} (X : Proxy.Externals W) : Prop :=
  (∀ message w, (X (Proxy.console_log message) w).1 = Normal ()) ∧
  (∀ message w, (X (Proxy.console_warn message) w).1 = Normal ()) ∧
  (∀ args w, (X (Proxy.console_error args) w).1 = Normal ()).

Definition is_fetch (c : Proxy.Call) : bool :=
  match c with Proxy.fetch _ _ => true | _ => false end.

(** String operations for the examples: on strings of letters without
    blanks, which are not numerals. *)
Definition plain_ops : Proxy.StringOps :=
  Proxy.mkStringOps (λ s, Z.of_nat (String.length s)) (λ s, s)
    (λ from to s, String.substring (Z.to_nat from) (Z.to_nat (to - from)) s)
    (λ s, String.substring 0 1 s) (λ _ _, false).

(** A world for the examples: the console returns, and the remote service
    gives the same answer to every request. *)
Definition remote (answer : Completion Proxy.Upstream) : Proxy.Externals unit := λ c,
  match c as c0 return unit → Completion (Proxy.Answer c0) * unit with
  | Proxy.fetch _ _ => λ w, (answer, w)
  | Proxy.console_log _ => λ w, (Normal (), w)
  | Proxy.console_warn _ => λ w, (Normal (), w)
  | Proxy.console_error _ => λ w, (Normal (), w)
  end.

Ltac proxy_cases :=
  unfold Proxy.ExtractText.handler, Proxy.AnalyzeText.handler, Proxy.GenerateAudio.handler,
    Proxy.await, Proxy.lift, mbind, Proxy.Prog_bind in *;
  repeat (cbn in *; case_match; simplify_eq);
  simplify_eq/=.

(** A text of 4097 code units. *)
Definition long_text : string := Nat.iter 4097 (String "a"%char) EmptyString.

(** Case analysis of a run of the handler, one external answer after the
    other. *)
Ltac run_cases :=
  unfold handler, serve, register, login, kvRequest, await, store_get, store_set,
    answered, credential_record, mbind, Prog_bind, lift in *;
  repeat (cbn in *; case_match; simplify_eq);
  simplify_eq/=.

(** ** Runs of composed programs *)

Section Runs.
Context {W : Type} (X : Externals W).

Lemma run_bind {A B} (p : Prog A) (f : A → Prog B) (w : W) :
  run X (bind p f) w =
  match outcome (run X p w) with
  | Normal a =>
      let u := run X (f a) (final (run X p w)) in
      mkRun (outcome u) (final u) (calls (run X p w) ++ calls u)
  | Thrown e => mkRun (Thrown e) (final (run X p w)) (calls (run X p w))
  end.
Proof.
  revert w. induction p as [a|e|c k IH]; intros w; simpl.
  - by destruct (run X (f a) w).
  - done.
  - rewrite IH. by destruct (outcome (run X (k (X c w).1) (X c w).2)).
Qed.

Lemma run_try_catch {A} (p : Prog A) (h : JsError → Prog A) (w : W) :
  run X (try_catch p h) w =
  match outcome (run X p w) with
  | Normal a => run X p w
  | Thrown e =>
      let u := run X (h e) (final (run X p w)) in
      mkRun (outcome u) (final u) (calls (run X p w) ++ calls u)
  end.
Proof.
  revert w. induction p as [a|e|c k IH]; intros w; simpl.
  - done.
  - by destruct (run X (h e) w).
  - rewrite IH.
    destruct (outcome (run X (k (X c w).1) (X c w).2)) eqn:E; simpl; by rewrite ?E.
Qed.

Lemma handler_serve (cfg : Config) (req : Request) (action username password : JsValue) :
  carries req action username password →
  handler cfg req = serve cfg action username password.
Proof.
  intros (Hm & Hd & <- & <- & <-). unfold handler.
  by rewrite Hm, Hd.
Qed.
End Runs.

Lemma post_carries (action username password : JsValue) :
  carries (post action username password) action username password.
Proof. by repeat split. Qed.

Lemma strict_eq_str_false (v : JsValue) (s : string) :
  v ≠ JStr s → strict_eq_str v s = false.
Proof.
  intros Hne. destruct v; try done. simpl.
  apply String.eqb_neq. congruence.
Qed.

Lemma strict_eq_str_true (v : JsValue) (s : string) :
  strict_eq_str v s = true → v = JStr s.
Proof. destruct v; try done. simpl. by intros ->%String.eqb_eq. Qed.

Lemma blind_refl {A} (p : Prog A) : blind p p.
Proof. induction p; constructor; auto. Qed.

Lemma blind_bind {A B} (p q : Prog A) (f g : A → Prog B) :
  blind p q → (∀ a, blind (f a) (g a)) → blind (bind p f) (bind q g).
Proof. intros Hpq Hfg. induction Hpq; simpl; try constructor; auto. Qed.

Lemma blind_try_catch {A} (p q : Prog A) (h : JsError → Prog A) :
  blind p q → blind (try_catch p h) (try_catch q h).
Proof.
  intros Hpq. induction Hpq; simpl; try constructor; auto using blind_refl.
Qed.

(** Against a hasher that tells nothing of the plaintext, two programs that
    differ at most in that plaintext run alike: same outcome, same world,
    same calls once the plaintext is struck out.  The plaintext has no other
    way out of the program. *)
Lemma blind_run {W A} (X : Externals W) (p q : Prog A) (w : W) :
  hasher_oblivious X →
  blind p q →
  outcome (run X p w) = outcome (run X q w) ∧
  final (run X p w) = final (run X q w) ∧
  redact <$> calls (run X p w) = redact <$> calls (run X q w).
Proof.
  intros [Hhash Hcompare] Hblind. revert w.
  induction Hblind as [a|e|c k1 k2 _ IH|s1 s2 salt k1 k2 _ IH|s1 s2 hash k1 k2 _ IH];
    intros w; cbn [run outcome final calls]; try done.
  - destruct (IH (X c w).1 (X c w).2) as (E1 & E2 & E3).
    rewrite !fmap_cons. by rewrite E1, E2, E3.
  - pose proof (Hhash s1 s2 salt w) as E.
    destruct (X (bcrypt_hash s1 salt) w) as [r1 u1], (X (bcrypt_hash s2 salt) w) as [r2 u2].
    injection E as -> ->. cbn [fst snd].
    destruct (IH r2 u2) as (E1 & E2 & E3).
    rewrite !fmap_cons. by rewrite E1, E2, E3.
  - pose proof (Hcompare s1 s2 hash w) as E.
    destruct (X (bcrypt_compare s1 hash) w) as [r1 u1],
             (X (bcrypt_compare s2 hash) w) as [r2 u2].
    injection E as -> ->. cbn [fst snd].
    destruct (IH r2 u2) as (E1 & E2 & E3).
    rewrite !fmap_cons. by rewrite E1, E2, E3.
Qed.

(** The concrete scenario of the specification, in the sample world: alice
    registers (201), logs in (200), fails to log in with a wrong password
    (401) and cannot register again (409). *)
Example concrete_scenario :
  answer_status <$>
    [outcome (run sample (handler sample_config register_alice) empty_world);
     outcome (run sample (handler sample_config login_alice)
                (alice_registered sample_config));
     outcome (run sample (handler sample_config
                            (post (JStr "login") (JStr "alice") (JStr "wrong")))
                (alice_registered sample_config));
     outcome (run sample (handler sample_config
                            (post (JStr "register") (JStr "alice") (JStr "other")))
                (alice_registered sample_config))]
  = [Some 201; Some 200; Some 401; Some 409].
Proof. reflexivity. Qed.

(** ** The credential and action checks *)

Section Checks.
Context {W : Type} (X : Externals W) (cfg : Config).

(** With a body to read from, a falsy [username] or [password] is answered
    400 at once, whatever the action: the program is a plain return. *)
Lemma missing_credentials_rejected (req : Request) (action username password : JsValue) :
  carries req action username password →
  is_truthy username = false ∨ is_truthy password = false →
  handler cfg req =
    Ret (mkResponse 400 (JObj [("error", JStr "Username and password are required.")])).
Proof.
  intros Hreq Hfalsy. rewrite (handler_serve cfg req _ _ _ Hreq). unfold serve.
  destruct Hfalsy as [-> | ->]; [done|]. by rewrite orb_true_r.
Qed.

(** The answer to an invalid action is only given when both credentials
    are truthy. *)
Lemma invalid_action_needs_credentials (req : Request) (action username password : JsValue)
    (w : W) (resp : HttpResponse) :
  carries req action username password →
  outcome (run X (handler cfg req) w) = Normal resp →
  json resp = JObj [("error", JStr invalid_action_message)] →
  is_truthy username = true ∧ is_truthy password = true.
Proof.
  intros Hreq Hrun Hjson. rewrite (handler_serve cfg req _ _ _ Hreq) in Hrun.
  unfold serve in Hrun.
  destruct (is_truthy username), (is_truthy password); try done;
    simpl in Hrun; injection Hrun as <-; discriminate Hjson.
Qed.

(** C5.  A POST request with truthy [username] and [password] whose
    [action] is neither the string [register] nor the string [login]
    (an absent action is [undefined]) is answered 400 with a message that
    begins [Invalid action specified]; the handler is a plain return, so
    in every world the run makes no call at all: no store operation, no
    hashing, no token issuance. *)
Theorem invalid_action_rejected (req : Request) (action username password : JsValue)
    (w : W) :
  carries req action username password →
  is_truthy username = true →
  is_truthy password = true →
  action ≠ JStr "register" →
  action ≠ JStr "login" →
  handler cfg req = Ret (mkResponse 400 (JObj [("error", JStr invalid_action_message)])) ∧
  String.prefix "Invalid action specified" invalid_action_message = true ∧
  outcome (run X (handler cfg req) w) =
    Normal (mkResponse 400 (JObj [("error", JStr invalid_action_message)])) ∧
  calls (run X (handler cfg req) w) = [] ∧
  final (run X (handler cfg req) w) = w.
Proof.
  intros Hreq Hu Hp Hr Hl.
  assert (handler cfg req =
          Ret (mkResponse 400 (JObj [("error", JStr invalid_action_message)]))) as ->.
  { rewrite (handler_serve cfg req _ _ _ Hreq). unfold serve.
    rewrite Hu, Hp, (strict_eq_str_false _ _ Hr), (strict_eq_str_false _ _ Hl).
    reflexivity. }
  by repeat split.
Qed.
End Checks.

(** An instance: a [delete] action with both credentials, in the sample world. *)
Lemma invalid_action_rejected_witness :
  calls (run sample (handler sample_config (post (JStr "delete") (JStr "alice") (JStr "s3cret")))
           empty_world) = [].
Proof.
  apply (invalid_action_rejected sample sample_config
           (post (JStr "delete") (JStr "alice") (JStr "s3cret"))
           (JStr "delete") (JStr "alice") (JStr "s3cret") empty_world);
    [apply post_carries | reflexivity | reflexivity | discriminate | discriminate].
Defined.

(** ** Requests without a body *)

(** C4.  The handler at a POST request without a body, where [req.body] is
    [undefined], and at one whose JSON body is [null]: [username] and
    [password] are absent, and the destructuring of [req.body], which
    stands before the credential check and outside the [try] block, throws
    a [TypeError]; the handler neither answers 400 nor answers at all. *)
Theorem missing_body_throws (cfg : Config) :
  handler cfg (mkRequest "POST" JUndefined) =
    Throw (TypeError "Cannot destructure property 'action' of 'req.body' as it is undefined.") ∧
  handler cfg (mkRequest "POST" JNull) =
    Throw (TypeError "Cannot destructure property 'action' of 'req.body' as it is null.").
Proof. split; reflexivity. Qed.

(** C10.  In every world, the run of the handler at a POST request without
    a body, which has no [action], no [username] and no [password], reaches
    neither the credential check nor the action check: it ends with the
    thrown [TypeError], without a response and without any call. *)
Theorem missing_body_reaches_no_check {W : Type} (X : Externals W) (cfg : Config) (w : W) :
  run X (handler cfg (mkRequest "POST" JUndefined)) w =
    mkRun (Thrown (TypeError
             "Cannot destructure property 'action' of 'req.body' as it is undefined."))
          w [] ∧
  run X (handler cfg (mkRequest "POST" JNull)) w =
    mkRun (Thrown (TypeError
             "Cannot destructure property 'action' of 'req.body' as it is null."))
          w [].
Proof. split; reflexivity. Qed.

(** ** Registration and login against the store *)

Section Flows.
Context {W : Type} (X : Externals W) (cfg : Config).

(** C1.  A register request (truthy [username] and [password]) for a user
    whose key the store answers with a truthy [result], as every stored
    credential record is, gets 409 with [{error: "User already exists."}].
    The run makes the one store read and nothing else: no store write, so
    the world is the one the read left.  The password is arbitrary. *)
Theorem register_existing_user_conflict (w : W) (req : Request)
    (username password : JsValue) (name : string) (data record : JsValue) :
  carries req (JStr "register") username password →
  is_truthy username = true →
  is_truthy password = true →
  to_string username = Normal name →
  (X (store_get cfg name) w).1 = answered data →
  get_prop data "result" = Normal record →
  is_truthy record = true →
  outcome (run X (handler cfg req) w) =
    Normal (mkResponse 409 (JObj [("error", JStr "User already exists.")])) ∧
  calls (run X (handler cfg req) w) = [store_get cfg name] ∧
  existsb is_store_write (calls (run X (handler cfg req) w)) = false ∧
  final (run X (handler cfg req) w) = (X (store_get cfg name) w).2.
Proof.
  intros Hreq Hu Hp Hname Hget Hres Hrec.
  rewrite (handler_serve cfg req _ _ _ Hreq).
  unfold serve, register, store_get, answered in *. rewrite Hu, Hp, Hname.
  destruct (X _ w) as [a w1] eqn:E in Hget.
  cbn in *. rewrite E. subst a. cbn. rewrite Hres. cbn. rewrite Hrec.
  by repeat split.
Qed.

(** A login for a user whose key the store answers with [null] gets 401. *)
Lemma login_unknown_user (w : W) (req : Request)
    (username password : JsValue) (name : string) (data : JsValue) :
  carries req (JStr "login") username password →
  is_truthy username = true →
  is_truthy password = true →
  to_string username = Normal name →
  (X (store_get cfg name) w).1 = answered data →
  get_prop data "result" = Normal JNull →
  outcome (run X (handler cfg req) w) =
    Normal (mkResponse 401 (JObj [("error", JStr "Invalid username or password.")])).
Proof.
  intros Hreq Hu Hp Hname Hget Hres.
  rewrite (handler_serve cfg req _ _ _ Hreq).
  unfold serve, login, store_get, answered in *. rewrite Hu, Hp, Hname.
  destruct (X _ w) as [a w1] eqn:E in Hget.
  cbn in *. rewrite E. subst a. cbn. by rewrite Hres.
Qed.

(** A login for a stored user with a password that the hasher does not
    accept gets 401. *)
Lemma login_wrong_password (w : W) (req : Request)
    (username password : JsValue) (name : string) (data record : JsValue) :
  carries req (JStr "login") username password →
  is_truthy username = true →
  is_truthy password = true →
  to_string username = Normal name →
  (X (store_get cfg name) w).1 = answered data →
  get_prop data "result" = Normal record →
  is_truthy record = true →
  (X (bcrypt_compare password (prop record "hashedPassword"))
     (X (store_get cfg name) w).2).1 = Normal false →
  outcome (run X (handler cfg req) w) =
    Normal (mkResponse 401 (JObj [("error", JStr "Invalid username or password.")])).
Proof.
  intros Hreq Hu Hp Hname Hget Hres Hrec Hcmp.
  rewrite (handler_serve cfg req _ _ _ Hreq).
  unfold serve, login, store_get, answered in *. rewrite Hu, Hp, Hname.
  destruct (X _ w) as [a w1] eqn:E in Hget.
  rewrite E in Hcmp.
  destruct (X (bcrypt_compare _ _) _) as [b w2] eqn:E2 in Hcmp.
  cbn in *. rewrite E. subst a. cbn. rewrite Hres. cbn. rewrite Hrec. cbn.
  rewrite E2. subst b. reflexivity.
Qed.

(** Of two login requests, the first for a username the store does not
    know (its [result] is [null]), the second for a stored user with a
    password for which [bcrypt.compare] answers [false], the responses are
    the same: status 401 and body [{error: "Invalid username or password."}]. *)
Theorem login_failures_indistinguishable (w1 w2 : W) (req1 req2 : Request)
    (username1 password1 username2 password2 : JsValue) (name1 name2 : string)
    (data1 data2 record : JsValue) :
  carries req1 (JStr "login") username1 password1 →
  is_truthy username1 = true →
  is_truthy password1 = true →
  to_string username1 = Normal name1 →
  (X (store_get cfg name1) w1).1 = answered data1 →
  get_prop data1 "result" = Normal JNull →
  carries req2 (JStr "login") username2 password2 →
  is_truthy username2 = true →
  is_truthy password2 = true →
  to_string username2 = Normal name2 →
  (X (store_get cfg name2) w2).1 = answered data2 →
  get_prop data2 "result" = Normal record →
  is_truthy record = true →
  (X (bcrypt_compare password2 (prop record "hashedPassword"))
     (X (store_get cfg name2) w2).2).1 = Normal false →
  outcome (run X (handler cfg req1) w1) = outcome (run X (handler cfg req2) w2) ∧
  outcome (run X (handler cfg req2) w2) =
    Normal (mkResponse 401 (JObj [("error", JStr "Invalid username or password.")])).
Proof.
  intros. erewrite login_unknown_user, login_wrong_password by eassumption. done.
Qed.
End Flows.

(** An instance: alice, registered with [s3cret], registers again with
    another password. *)
Lemma register_existing_user_conflict_witness :
  outcome (run sample (handler sample_config
                         (post (JStr "register") (JStr "alice") (JStr "other")))
             (alice_registered sample_config)) =
    Normal (mkResponse 409 (JObj [("error", JStr "User already exists.")])) ∧
  calls (run sample (handler sample_config
                       (post (JStr "register") (JStr "alice") (JStr "other")))
           (alice_registered sample_config)) = [store_get sample_config "alice"] ∧
  existsb is_store_write
    (calls (run sample (handler sample_config
                          (post (JStr "register") (JStr "alice") (JStr "other")))
              (alice_registered sample_config))) = false ∧
  final (run sample (handler sample_config
                       (post (JStr "register") (JStr "alice") (JStr "other")))
           (alice_registered sample_config)) =
    (sample (store_get sample_config "alice") (alice_registered sample_config)).2.
Proof.
  eapply (register_existing_user_conflict sample sample_config
            (alice_registered sample_config)
            (post (JStr "register") (JStr "alice") (JStr "other"))
            (JStr "alice") (JStr "other") "alice").
  - apply post_carries.
  - reflexivity.
  - reflexivity.
  - reflexivity.
  - reflexivity.
  - reflexivity.
  - reflexivity.
Defined.

(** An instance: bob, who never registered, and alice with a wrong
    password. *)
Lemma login_failures_indistinguishable_witness :
  outcome (run sample (handler sample_config
                         (post (JStr "login") (JStr "bob") (JStr "s3cret")))
             (alice_registered sample_config)) =
  outcome (run sample (handler sample_config
                         (post (JStr "login") (JStr "alice") (JStr "wrong")))
             (alice_registered sample_config)) ∧
  outcome (run sample (handler sample_config
                         (post (JStr "login") (JStr "alice") (JStr "wrong")))
             (alice_registered sample_config)) =
    Normal (mkResponse 401 (JObj [("error", JStr "Invalid username or password.")])).
Proof.
  eapply (login_failures_indistinguishable sample sample_config
            (alice_registered sample_config) (alice_registered sample_config)
            (post (JStr "login") (JStr "bob") (JStr "s3cret"))
            (post (JStr "login") (JStr "alice") (JStr "wrong"))
            (JStr "bob") (JStr "s3cret") (JStr "alice") (JStr "wrong") "bob" "alice").
  - apply post_carries.
  - reflexivity.
  - reflexivity.
  - reflexivity.
  - reflexivity.
  - reflexivity.
  - apply post_carries.
  - reflexivity.
  - reflexivity.
  - reflexivity.
  - reflexivity.
  - reflexivity.
  - reflexivity.
  - reflexivity.
Defined.

(** C3.  Two failed logins that can be told apart.  The credential check
    lets every truthy password through, a number as well, and
    [bcrypt.compare] does not answer [false] for a password that is not a
    string: it throws.  So for the password [123] the login of alice, who is
    registered, is answered 500 with the hasher's complaint as [details],
    after the store read, the comparison and the log, while the login of
    bob, whom the store does not know, is answered 401 after the store read
    alone. *)
Theorem login_failures_distinguishable :
  outcome (run sample (handler sample_config (post (JStr "login") (JStr "alice") (JNum 123)))
             (alice_registered sample_config)) =
    Normal (mkResponse 500
              (JObj [("error", JStr "Internal server error during authentication.");
                     ("details", JStr "Illegal arguments: number, string")])) ∧
  calls (run sample (handler sample_config (post (JStr "login") (JStr "alice") (JNum 123)))
           (alice_registered sample_config)) =
    [store_get sample_config "alice";
     bcrypt_compare (JNum 123)
       (JStr (hasher_hash sample_core (fit_salt (sample_random 0)) "s3cret"));
     console_error "Authentication API error:" (Error "Illegal arguments: number, string")] ∧
  outcome (run sample (handler sample_config (post (JStr "login") (JStr "bob") (JNum 123)))
             (alice_registered sample_config)) =
    Normal (mkResponse 401 (JObj [("error", JStr "Invalid username or password.")])) ∧
  calls (run sample (handler sample_config (post (JStr "login") (JStr "bob") (JNum 123)))
           (alice_registered sample_config)) = [store_get sample_config "bob"].
Proof.
  split_and!.
  - reflexivity.
  - reflexivity.
  - reflexivity.
  - reflexivity.
Qed.

(** ** The credential hasher of the reference world *)

Lemma string_take_app (s t : string) :
  string_take (String.length s) (s +:+ t) = s.
Proof. induction s as [|a s IH]; simpl; [by destruct t | by rewrite IH]. Qed.

Lemma string_take_length (n : nat) (s : string) :
  (n ≤ String.length s)%nat → String.length (string_take n s) = n.
Proof.
  revert s. induction n as [|n IH]; intros s Hn; [done|].
  destruct s as [|a s]; simpl in *; [lia|]. rewrite IH; lia.
Qed.

Lemma string_app_length (s t : string) :
  String.length (s +:+ t) = (String.length s + String.length t)%nat.
Proof. induction s as [|a s IH]; simpl; [done | by rewrite IH]. Qed.

Lemma fit_salt_length (r : string) : String.length (fit_salt r) = salt_length.
Proof.
  unfold fit_salt. apply string_take_length.
  rewrite string_app_length. simpl. unfold salt_length. lia.
Qed.

Section Hasher.
Variable digest_core : string → string → string.

(** Verification accepts the digest of the same plaintext, whatever the
    salt of the fixed length. *)
Lemma hasher_verify_hash (salt plaintext : string) :
  String.length salt = salt_length →
  hasher_verify digest_core plaintext (hasher_hash digest_core salt plaintext) = true.
Proof.
  intros Hlen. unfold hasher_verify. apply String.eqb_eq.
  assert (string_take salt_length (hasher_hash digest_core salt plaintext) = salt) as ->;
    [|done].
  unfold hasher_hash. rewrite <- Hlen. apply string_take_app.
Qed.

(** The salt can be read back from the digest: digests of different salts
    differ. *)
Lemma hasher_hash_salt_inj (salt1 salt2 plaintext1 plaintext2 : string) :
  String.length salt1 = salt_length →
  String.length salt2 = salt_length →
  hasher_hash digest_core salt1 plaintext1 = hasher_hash digest_core salt2 plaintext2 →
  salt1 = salt2.
Proof.
  intros H1 H2 Heq.
  rewrite <- (string_take_app salt1 (digest_core salt1 plaintext1)).
  rewrite <- (string_take_app salt2 (digest_core salt2 plaintext2)).
  unfold hasher_hash in Heq. by rewrite H1, H2, Heq.
Qed.
End Hasher.

Section ReferenceHasher.
Variable random : nat → string.
Variable digest_core : string → string → string.
Variable mac : string → JsValue → string.

(** In the reference world the hasher accepts every digest it produced
    for the same plaintext. *)
Lemma reference_verify_accepts (plaintext hash : string) (w w' : World) :
  (reference random digest_core mac (bcrypt_hash (JStr plaintext) 10) w).1 = Normal hash →
  (reference random digest_core mac (bcrypt_compare (JStr plaintext) (JStr hash)) w').1 = Normal true.
Proof.
  simpl. intros [= <-]. f_equal. apply hasher_verify_hash, fit_salt_length.
Qed.

(** C8.  In the reference world, [bcrypt.hash] called twice on the same
    plaintext gives two digests, each embedding the salt drawn for its
    call; when the two salts differ (each call draws a fresh one) the
    digests differ, and [bcrypt.compare] of the plaintext with either
    digest is [true], in whatever state of the world it is called. *)
Theorem hash_fresh_salt_verifies (w : World) (plaintext : string) :
  fit_salt (random (draws w)) ≠ fit_salt (random (S (draws w))) →
  ∃ digest1 digest2 : string,
    (reference random digest_core mac (bcrypt_hash (JStr plaintext) 10) w).1 = Normal digest1 ∧
    (reference random digest_core mac (bcrypt_hash (JStr plaintext) 10)
       (reference random digest_core mac (bcrypt_hash (JStr plaintext) 10) w).2).1 = Normal digest2 ∧
    digest1 = hasher_hash digest_core (fit_salt (random (draws w))) plaintext ∧
    digest2 = hasher_hash digest_core (fit_salt (random (S (draws w)))) plaintext ∧
    digest1 ≠ digest2 ∧
    (∀ w', (reference random digest_core mac (bcrypt_compare (JStr plaintext) (JStr digest1)) w').1 = Normal true) ∧
    (∀ w', (reference random digest_core mac (bcrypt_compare (JStr plaintext) (JStr digest2)) w').1 = Normal true).
Proof.
  intros Hfresh. eexists _, _. repeat split.
  - intros Heq. apply Hfresh.
    eapply hasher_hash_salt_inj; [apply fit_salt_length..|exact Heq].
  - intros w'. by eapply reference_verify_accepts.
  - intros w'. by eapply reference_verify_accepts.
Qed.
End ReferenceHasher.

(** An instance: the first two draws of the sample world. *)
Lemma hash_fresh_salt_verifies_witness :
  ∃ digest1 digest2 : string,
    (sample (bcrypt_hash (JStr "s3cret") 10) empty_world).1 = Normal digest1 ∧
    (sample (bcrypt_hash (JStr "s3cret") 10)
       (sample (bcrypt_hash (JStr "s3cret") 10) empty_world).2).1 = Normal digest2 ∧
    digest1 = hasher_hash sample_core (fit_salt (sample_random 0)) "s3cret" ∧
    digest2 = hasher_hash sample_core (fit_salt (sample_random 1)) "s3cret" ∧
    digest1 ≠ digest2 ∧
    (∀ w', (sample (bcrypt_compare (JStr "s3cret") (JStr digest1)) w').1 = Normal true) ∧
    (∀ w', (sample (bcrypt_compare (JStr "s3cret") (JStr digest2)) w').1 = Normal true).
Proof.
  apply (hash_fresh_salt_verifies sample_random sample_core sample_mac empty_world "s3cret").
  vm_compute. discriminate.
Defined.

(** ** What a successful run went through *)

Section Inversion.
Context {W : Type} (X : Externals W) (cfg : Config).

(** A run that answers 201 read the user's key and found nothing, hashed
    the password, drew an identifier and wrote the credential record. *)
Lemma created_inv (w : W) (req : Request) (resp : HttpResponse) :
  outcome (run X (handler cfg req) w) = Normal resp →
  status resp = 201 →
  ∃ (name hashedPassword userId : string) (w1 w2 : W),
    carries req (JStr "register") (prop (req_body req) "username")
      (prop (req_body req) "password") ∧
    is_truthy (prop (req_body req) "username") = true ∧
    is_truthy (prop (req_body req) "password") = true ∧
    to_string (prop (req_body req) "username") = Normal name ∧
    (X (bcrypt_hash (prop (req_body req) "password") 10) w1).1 = Normal hashedPassword ∧
    (X crypto_randomUUID w2).1 = Normal userId ∧
    calls (run X (handler cfg req) w) =
      [store_get cfg name; bcrypt_hash (prop (req_body req) "password") 10;
       crypto_randomUUID; store_set cfg name (credential_record userId hashedPassword)] ∧
    resp = mkResponse 201 (JObj [("message", JStr "User registered successfully.");
                                 ("userId", JStr userId)]).
Proof.
  intros Hrun Hst.
  destruct (destructure "req.body" "action" (req_body req)) as [body|] eqn:Hbody.
  2: { unfold handler in Hrun. rewrite Hbody in Hrun.
       destruct (negb _); simpl in Hrun; by simplify_eq. }
  assert (body = req_body req) as -> by (destruct (req_body req); by simplify_eq/=).
  revert Hrun. run_cases; intros Hrun; simplify_eq/=.
  match goal with
  | H : negb (String.eqb (req_method req) _) = false |- _ =>
      apply negb_false_iff, String.eqb_eq in H; rename H into Hmethod
  end.
  match goal with
  | H : _ || _ = false |- _ =>
      apply orb_false_iff in H as [Hu%negb_false_iff Hp%negb_false_iff]
  end.
  match goal with
  | H : strict_eq_str _ "register" = true |- _ =>
      apply strict_eq_str_true in H; rename H into Haction
  end.
  eexists _, _, _, _, _.
  split; [by unfold carries; rewrite Haction|].
  split_and!; try done; eassumption.
Qed.

(** A run that answers 200 read a truthy record under the user's key, had
    the password accepted against the record's hash, and was given the
    token by the issuer, for the payload made of the record's [userId] and
    the request's [username]. *)
Lemma logged_in_inv (w : W) (req : Request) (resp : HttpResponse) :
  outcome (run X (handler cfg req) w) = Normal resp →
  status resp = 200 →
  ∃ (name : string) (data record token : JsValue) (w1 w2 : W),
    to_string (prop (req_body req) "username") = Normal name ∧
    (X (store_get cfg name) w).1 = answered data ∧
    get_prop data "result" = Normal record ∧
    is_truthy record = true ∧
    w1 = (X (store_get cfg name) w).2 ∧
    (X (bcrypt_compare (prop (req_body req) "password") (prop record "hashedPassword"))
       w1).1 = Normal true ∧
    w2 = (X (bcrypt_compare (prop (req_body req) "password")
               (prop record "hashedPassword")) w1).2 ∧
    (X (jwt_sign (JObj [("userId", prop record "userId");
                        ("username", prop (req_body req) "username")])
                 (JWT_SECRET cfg) (mkSignOptions "1h")) w2).1 = Normal token ∧
    resp = mkResponse 200 (JObj [("message", JStr "Login successful.");
                                 ("token", token);
                                 ("userId", prop record "userId")]).
Proof.
  intros Hrun Hst.
  destruct (destructure "req.body" "action" (req_body req)) as [body|] eqn:Hbody.
  2: { unfold handler in Hrun. rewrite Hbody in Hrun.
       destruct (negb _); simpl in Hrun; by simplify_eq. }
  assert (body = req_body req) as -> by (destruct (req_body req); by simplify_eq/=).
  run_cases.
  match goal with r : FetchResponse |- _ => destruct r as [ok body] end.
  repeat match goal with H : negb _ = false |- _ => apply negb_false_iff in H end.
  simplify_eq/=.
  eexists _, _, _, _, _, _. split_and!; try done; eassumption.
Qed.

(** Every store write of a run is the write of a credential record under
    the key of the request's user, with the digest the hasher returned
    for the request's password and a drawn identifier. *)
Lemma store_write_inv (w : W) (req : Request) (c : Call) :
  c ∈ calls (run X (handler cfg req) w) →
  is_store_write c = true →
  ∃ (name hashedPassword userId : string) (w1 w2 : W),
    to_string (prop (req_body req) "username") = Normal name ∧
    (X (bcrypt_hash (prop (req_body req) "password") 10) w1).1 = Normal hashedPassword ∧
    (X crypto_randomUUID w2).1 = Normal userId ∧
    c = store_set cfg name (credential_record userId hashedPassword).
Proof.
  intros Hc Hwrite.
  destruct (destructure "req.body" "action" (req_body req)) as [body|] eqn:Hbody.
  2: { unfold handler in Hc. rewrite Hbody in Hc.
       destruct (negb _); simpl in Hc; by apply elem_of_nil in Hc. }
  assert (body = req_body req) as -> by (destruct (req_body req); by simplify_eq/=).
  run_cases.
  all: repeat (apply elem_of_cons in Hc as [->|Hc]); try (by apply elem_of_nil in Hc).
  all: try discriminate Hwrite.
  all: eexists _, _, _, _, _; split_and!; try done; eassumption.
Qed.
End Inversion.

(** ** Login after registration *)

Section LoginAfterRegister.
Context {W : Type} (X : Externals W) (cfg : Config).

(** A login for a stored user whose password the hasher accepts, when the
    issuer returns a token, gets 200 with the token and the record's
    [userId]. *)
Lemma login_success (w : W) (req : Request) (username password : JsValue)
    (name : string) (data record token : JsValue) :
  carries req (JStr "login") username password →
  is_truthy username = true →
  is_truthy password = true →
  to_string username = Normal name →
  (X (store_get cfg name) w).1 = answered data →
  get_prop data "result" = Normal record →
  is_truthy record = true →
  (X (bcrypt_compare password (prop record "hashedPassword"))
     (X (store_get cfg name) w).2).1 = Normal true →
  (X (jwt_sign (JObj [("userId", prop record "userId"); ("username", username)])
               (JWT_SECRET cfg) (mkSignOptions "1h"))
     (X (bcrypt_compare password (prop record "hashedPassword"))
        (X (store_get cfg name) w).2).2).1 = Normal token →
  outcome (run X (handler cfg req) w) =
    Normal (mkResponse 200 (JObj [("message", JStr "Login successful.");
                                  ("token", token);
                                  ("userId", prop record "userId")])).
Proof.
  intros Hreq Hu Hp Hname Hget Hres Hrec Hcmp Hsign.
  rewrite (handler_serve cfg req _ _ _ Hreq).
  unfold serve, login, store_get, answered in *. rewrite Hu, Hp, Hname.
  destruct (X _ w) as [a w1] eqn:E in Hget.
  rewrite E in Hcmp, Hsign.
  destruct (X (bcrypt_compare _ _) _) as [b w2] eqn:E2 in Hcmp.
  rewrite E2 in Hsign.
  destruct (X (jwt_sign _ _ _) _) as [t w3] eqn:E3 in Hsign.
  cbn in *. rewrite E. subst a. cbn. rewrite Hres. cbn. rewrite Hrec. cbn.
  rewrite E2. subst b. cbn. rewrite E3. subst t. reflexivity.
Qed.

(** Login after registration when the issuer returns a token.  For truthy
    [username] and [password]: if the register
    request is answered 201 with [userId], and login runs in a world where
    the store gives back what registration wrote under the user's key
    (read-after-write, the key untouched since), the hasher accepts the
    digests it produced for the password, and the issuer returns a token
    under the configured secret, then the login with the same credentials
    is answered 200 with a token and the same [userId]. *)
Theorem login_after_register (w0 w1 : W) (req_r req_l : Request)
    (username password : JsValue) (name userId : string) :
  carries req_r (JStr "register") username password →
  carries req_l (JStr "login") username password →
  is_truthy username = true →
  is_truthy password = true →
  to_string username = Normal name →
  outcome (run X (handler cfg req_r) w0) =
    Normal (mkResponse 201 (JObj [("message", JStr "User registered successfully.");
                                  ("userId", JStr userId)])) →
  read_after_write X cfg name (calls (run X (handler cfg req_r) w0)) w1 →
  verify_accepts X password →
  issuer_returns X cfg →
  ∃ token,
    outcome (run X (handler cfg req_l) w1) =
      Normal (mkResponse 200 (JObj [("message", JStr "Login successful.");
                                    ("token", token);
                                    ("userId", JStr userId)])).
Proof.
  intros Hreg Hlog Hu Hp Hname Hcreated Hraw Hverify Hsign.
  destruct (created_inv X cfg w0 req_r _ Hcreated eq_refl)
    as (name' & hash & userId' & wh & wu & _ & _ & _ & Hname' & Hhash & _ & Hcalls & Hresp).
  destruct Hreg as (_ & _ & _ & Hru & Hrp). rewrite Hru, Hrp in *.
  rewrite Hname in Hname'. injection Hname' as <-. injection Hresp as <-.
  destruct (Hraw (credential_record userId hash)) as (data & Hget & Hres).
  { rewrite Hcalls. set_solver. }
  specialize (Hverify hash wh ((X (store_get cfg name) w1).2) Hhash).
  destruct (Hsign [("userId", JStr userId); ("username", username)]
              ((X (bcrypt_compare password (JStr hash)) (X (store_get cfg name) w1).2).2))
    as [token Htoken].
  exists token.
  by apply (login_success w1 req_l username password name data
              (credential_record userId hash) token).
Qed.
End LoginAfterRegister.

(** The reference store gives back, after alice registered, what the
    registration wrote, whatever the signing secret. *)
Lemma alice_read_after_write (secret : option string) :
  let cfg := mkConfig (Some "https://kv.example") (Some "store-token") secret in
  read_after_write sample cfg "alice"
    (calls (run sample (handler cfg register_alice) empty_world)) (alice_registered cfg).
Proof.
  intros cfg value Hin. cbn in Hin.
  repeat (apply elem_of_cons in Hin as [Heq|Hin]); try (by apply elem_of_nil in Hin);
    try discriminate Heq.
  unfold store_set, kv_call in Heq.
  destruct (is_truthy value); simplify_eq/=.
  eexists; split; [vm_compute; reflexivity | reflexivity].
Qed.

Lemma sample_verify_accepts (plaintext : string) : verify_accepts sample (JStr plaintext).
Proof. intros hash w w'. apply reference_verify_accepts. Qed.

(** An instance: alice registers and logs in, in the sample world with its
    signing secret. *)
Lemma login_after_register_witness :
  ∃ token,
    outcome (run sample (handler sample_config login_alice) (alice_registered sample_config)) =
      Normal (mkResponse 200 (JObj [("message", JStr "Login successful.");
                                    ("token", token);
                                    ("userId", JStr "r1")])).
Proof.
  apply (login_after_register sample sample_config empty_world (alice_registered sample_config)
           register_alice login_alice (JStr "alice") (JStr "s3cret") "alice" "r1").
  - apply post_carries.
  - apply post_carries.
  - reflexivity.
  - reflexivity.
  - reflexivity.
  - reflexivity.
  - apply (alice_read_after_write (Some "signing-secret")).
  - apply sample_verify_accepts.
  - intros props w. eexists. reflexivity.
Defined.

(** Nothing can be dropped from the assumption on the issuer: without a
    signing secret, alice registers (201), the store gives her record back
    and the hasher accepts her password, and yet her login is not answered
    200. *)
Lemma login_follows_register_counterexample :
  ¬ login_follows_register sample no_secret_config.
Proof.
  intros Hclaim.
  destruct (Hclaim empty_world (alice_registered no_secret_config)
              register_alice login_alice (JStr "alice") (JStr "s3cret") "alice" "r1")
    as [token Hlogin].
  - apply post_carries.
  - apply post_carries.
  - reflexivity.
  - reflexivity.
  - reflexivity.
  - reflexivity.
  - apply (alice_read_after_write None).
  - apply sample_verify_accepts.
  - vm_compute in Hlogin. discriminate Hlogin.
Qed.

(** C2.  Registration and login without a signing secret, in the reference
    world.  The handler never looks at [JWT_SECRET]: alice's registration is
    answered 201 with her [userId], the store gives back what was written
    under her key and the hasher accepts the digest it made of her
    password, as the claim relies on; the login with the same credentials
    reads the record, has the password verified, calls [jwt.sign] with the
    absent secret and answers 500 with the issuer's refusal as [details],
    not 200 with a token. *)
Theorem login_after_register_without_secret :
  outcome (run sample (handler no_secret_config register_alice) empty_world) =
    Normal (mkResponse 201 (JObj [("message", JStr "User registered successfully.");
                                  ("userId", JStr "r1")])) ∧
  read_after_write sample no_secret_config "alice"
    (calls (run sample (handler no_secret_config register_alice) empty_world))
    (alice_registered no_secret_config) ∧
  verify_accepts sample (JStr "s3cret") ∧
  outcome (run sample (handler no_secret_config login_alice)
             (alice_registered no_secret_config)) =
    Normal (mkResponse 500
              (JObj [("error", JStr "Internal server error during authentication.");
                     ("details", JStr "secretOrPrivateKey must have a value")])) ∧
  calls (run sample (handler no_secret_config login_alice)
           (alice_registered no_secret_config)) =
    [store_get no_secret_config "alice";
     bcrypt_compare (JStr "s3cret")
       (JStr (hasher_hash sample_core (fit_salt (sample_random 0)) "s3cret"));
     jwt_sign (JObj [("userId", JStr "r1"); ("username", JStr "alice")]) None
       (mkSignOptions "1h");
     console_error "Authentication API error:"
       (Error "secretOrPrivateKey must have a value")].
Proof.
  split_and!.
  - reflexivity.
  - apply (alice_read_after_write None).
  - apply sample_verify_accepts.
  - reflexivity.
  - reflexivity.
Qed.

(** ** Tokens in the reference world *)

Section ReferenceIssuer.
Variable random : nat → string.
Variable digest_core : string → string → string.
Variable mac : string → JsValue → string.

Lemma reference_compare_world (s hash : JsValue) (w : World) :
  (reference random digest_core mac (bcrypt_compare s hash) w).2 = w.
Proof. simpl. by repeat case_match. Qed.

Lemma issuer_issue_inv (props : list (string * JsValue)) (secret : option string)
    (now : Z) (token : JsValue) :
  issuer_issue mac (JObj props) secret (mkSignOptions "1h") now = Normal token →
  ∃ key,
    secret = Some key ∧
    token = JObj [("payload", JObj (props ++ [("iat", JNum now); ("exp", JNum (now + 3600))]));
                  ("signature",
                   JStr (mac key (JObj (props ++ [("iat", JNum now);
                                                  ("exp", JNum (now + 3600))]))))].
Proof.
  unfold issuer_issue. intros Hissue.
  destruct secret as [key|]; [|done].
  destruct (String.eqb key EmptyString); [done|].
  simpl in Hissue. injection Hissue as <-. by exists key.
Qed.

(** C6.  In the reference world, whose issuer follows section 4.3 of the
    specification: a response with status 200 carries a token whose
    payload is exactly the [userId] of the record stored under the user's
    key, the [username] of the request, the issuance time [iat] (the clock
    of the world) and the expiry [exp = iat + 3600] seconds.  The token
    verifies under the configured secret up to the expiry, and under no
    secret at any time after it. *)
Theorem issued_token_expires (cfg : Config) (w : World) (req : Request)
    (resp : HttpResponse) :
  outcome (run (reference random digest_core mac) (handler cfg req) w) = Normal resp →
  status resp = 200 →
  ∃ (name secret : string) (record token : JsValue),
    to_string (prop (req_body req) "username") = Normal name ∧
    kv w !! (env_text (UPSTASH_KV_REST_API_URL cfg) +:+ "/" +:+ userKey name) = Some record ∧
    JWT_SECRET cfg = Some secret ∧
    json resp = JObj [("message", JStr "Login successful.");
                      ("token", token);
                      ("userId", prop record "userId")] ∧
    prop token "payload" =
      JObj [("userId", prop record "userId");
            ("username", prop (req_body req) "username");
            ("iat", JNum (clock w));
            ("exp", JNum (clock w + 3600))] ∧
    (∀ now, now ≤ clock w + 3600 →
       issuer_verify mac secret token now =
         Some (prop record "userId", prop (req_body req) "username")) ∧
    (∀ key now, clock w + 3600 < now → issuer_verify mac key token now = None).
Proof.
  intros Hrun Hst.
  destruct (logged_in_inv _ cfg w req resp Hrun Hst)
    as (name & data & record & token & w1 & w2
        & Hname & Hget & Hres & Hrec & -> & _ & -> & Hsign & ->).
  rewrite reference_compare_world in Hsign.
  unfold store_get, kv_call, answered in Hget. cbn in Hget, Hsign.
  injection Hget as <-. cbn in Hres. injection Hres as <-.
  apply issuer_issue_inv in Hsign as (key & Hkey & ->).
  destruct (kv w !! _) as [record|] eqn:Hkv; [|done].
  exists name, key, record. eexists. split_and!; try done.
  - intros now Hnow. unfold issuer_verify. cbn.
    rewrite String.eqb_refl. cbn.
    destruct (Z.ltb_spec (clock w + 3600) now); [lia|done].
  - intros key' now Hnow. unfold issuer_verify. cbn.
    destruct (negb _); [done|].
    destruct (Z.ltb_spec (clock w + 3600) now); [done|lia].
Qed.
End ReferenceIssuer.

(** An instance: the token of alice's login, issued at 1700000000. *)
Lemma issued_token_expires_witness :
  ∃ (name secret : string) (record token : JsValue),
    to_string (prop (req_body login_alice) "username") = Normal name ∧
    kv (alice_registered sample_config)
      !! (env_text (UPSTASH_KV_REST_API_URL sample_config) +:+ "/" +:+ userKey name)
      = Some record ∧
    JWT_SECRET sample_config = Some secret ∧
    json (mkResponse 200
            (JObj [("message", JStr "Login successful.");
                   ("token",
                    JObj [("payload",
                           JObj [("userId", JStr "r1"); ("username", JStr "alice");
                                 ("iat", JNum 1700000000); ("exp", JNum 1700003600)]);
                          ("signature", JStr "signing-secret/r1")]);
                   ("userId", JStr "r1")])) =
      JObj [("message", JStr "Login successful.");
            ("token", token);
            ("userId", prop record "userId")] ∧
    prop token "payload" =
      JObj [("userId", prop record "userId");
            ("username", prop (req_body login_alice) "username");
            ("iat", JNum (clock (alice_registered sample_config)));
            ("exp", JNum (clock (alice_registered sample_config) + 3600))] ∧
    (∀ now, now ≤ clock (alice_registered sample_config) + 3600 →
       issuer_verify sample_mac secret token now =
         Some (prop record "userId", prop (req_body login_alice) "username")) ∧
    (∀ key now, clock (alice_registered sample_config) + 3600 < now →
       issuer_verify sample_mac key token now = None).
Proof.
  apply (issued_token_expires sample_random sample_core sample_mac sample_config
           (alice_registered sample_config) login_alice);
    reflexivity.
Defined.

(** ** Where the password goes *)

Section Password.
Context {W : Type} (X : Externals W) (cfg : Config).

(** Two requests that differ only in their truthy passwords run the same
    program, up to the plaintext handed to the hasher. *)
Lemma handler_blind (req1 req2 : Request) (action username password1 password2 : JsValue) :
  carries req1 action username password1 →
  carries req2 action username password2 →
  is_truthy password1 = true →
  is_truthy password2 = true →
  blind (handler cfg req1) (handler cfg req2).
Proof.
  intros Hreq1 Hreq2 Hp1 Hp2.
  rewrite (handler_serve cfg req1 _ _ _ Hreq1), (handler_serve cfg req2 _ _ _ Hreq2).
  unfold serve. rewrite Hp1, Hp2.
  destruct (negb (is_truthy username)); simpl; [apply blind_refl|].
  apply blind_try_catch.
  destruct (strict_eq_str action "register"); [|destruct (strict_eq_str action "login")].
  - unfold register, mbind, Prog_bind.
    apply blind_bind; [apply blind_refl|intros name].
    apply blind_bind; [apply blind_refl|intros existingUser].
    apply blind_bind; [apply blind_refl|intros result].
    destruct (is_truthy result); [apply blind_refl|].
    simpl. apply blind_hash. intros r. apply blind_refl.
  - unfold login, mbind, Prog_bind.
    apply blind_bind; [apply blind_refl|intros name].
    apply blind_bind; [apply blind_refl|intros userData].
    apply blind_bind; [apply blind_refl|intros result].
    destruct (negb (is_truthy result)); [apply blind_refl|].
    simpl. apply blind_compare. intros r. apply blind_refl.
  - apply blind_refl.
Qed.

(** C9.  For every request that carries [action], [username] and
    [password]: (1) with another truthy password in place of a truthy one,
    the handler is the same program up to the plaintext handed to
    [bcrypt.hash] and [bcrypt.compare], so responses, store requests,
    token payloads and console lines depend on the password only through
    the hasher's answers, and against a hasher whose answers tell nothing
    of the plaintext the two runs have the same outcome and the same calls
    once the plaintext is struck out; (2) every store write of a run writes, under the
    key of the user, the record [{userId, hashedPassword}] of a drawn
    identifier and the digest the hasher returned for the password;
    (3) a 201 response holds only the message and the drawn [userId];
    (4) a 200 response holds only the message, the token the issuer
    returned for the payload [{userId, username}], and the record's
    [userId]. *)
Theorem password_not_disclosed (w : W) (req : Request)
    (action username password : JsValue) :
  carries req action username password →
  (∀ req' password',
     carries req' action username password' →
     is_truthy password = true →
     is_truthy password' = true →
     blind (handler cfg req) (handler cfg req') ∧
     (hasher_oblivious X →
      outcome (run X (handler cfg req) w) = outcome (run X (handler cfg req') w) ∧
      redact <$> calls (run X (handler cfg req) w) =
        redact <$> calls (run X (handler cfg req') w))) ∧
  (∀ c, c ∈ calls (run X (handler cfg req) w) →
     is_store_write c = true →
     ∃ (name hashedPassword userId : string) (w1 w2 : W),
       to_string username = Normal name ∧
       (X (bcrypt_hash password 10) w1).1 = Normal hashedPassword ∧
       (X crypto_randomUUID w2).1 = Normal userId ∧
       c = store_set cfg name (credential_record userId hashedPassword)) ∧
  (∀ resp, outcome (run X (handler cfg req) w) = Normal resp →
     status resp = 201 →
     ∃ (userId : string) (w' : W),
       (X crypto_randomUUID w').1 = Normal userId ∧
       json resp = JObj [("message", JStr "User registered successfully.");
                         ("userId", JStr userId)]) ∧
  (∀ resp, outcome (run X (handler cfg req) w) = Normal resp →
     status resp = 200 →
     ∃ (record token : JsValue) (w' : W),
       (X (jwt_sign (JObj [("userId", prop record "userId"); ("username", username)])
                    (JWT_SECRET cfg) (mkSignOptions "1h")) w').1 = Normal token ∧
       json resp = JObj [("message", JStr "Login successful.");
                         ("token", token);
                         ("userId", prop record "userId")]).
Proof.
  intros Hreq. pose proof Hreq as (_ & _ & _ & Hu & Hp). split_and!.
  - intros req' password' Hreq' Htruthy Htruthy'.
    assert (blind (handler cfg req) (handler cfg req')) as Hblind
      by by eapply handler_blind.
    split; [done|]. intros Hoblivious.
    by destruct (blind_run X _ _ w Hoblivious Hblind) as (? & _ & ?).
  - intros c Hc Hwrite. rewrite <- Hu, <- Hp. by eapply store_write_inv.
  - intros resp Hrun Hst.
    destruct (created_inv X cfg w req resp Hrun Hst)
      as (name & hash & userId & w1 & w2 & _ & _ & _ & _ & _ & Huuid & _ & ->).
    by exists userId, w2.
  - intros resp Hrun Hst.
    destruct (logged_in_inv X cfg w req resp Hrun Hst)
      as (name & data & record & token & w1 & w2 & _ & _ & _ & _ & _ & _ & _ & Hsign & ->).
    rewrite Hu in Hsign. by exists record, token, w2.
Qed.
End Password.

(** An instance: alice's registration with two different passwords. *)
Lemma password_not_disclosed_witness :
  blind (handler sample_config register_alice)
        (handler sample_config (post (JStr "register") (JStr "alice") (JStr "other"))).
Proof.
  refine (proj1 (proj1 (password_not_disclosed sample sample_config empty_world
                          register_alice (JStr "register") (JStr "alice") (JStr "s3cret") _)
                   (post (JStr "register") (JStr "alice") (JStr "other")) (JStr "other")
                   _ _ _)).
  - apply post_carries.
  - apply post_carries.
  - reflexivity.
  - reflexivity.
Defined.

(** ** Absent configuration *)

(** C7.  The handler with configuration variables that are not set.  With
    nothing set, in every world its first step for a register request is
    the store request to [undefined/users:alice] with the header
    [Bearer undefined]: nothing is refused.  With the store URL set and
    neither the store token nor the signing secret, in the reference world
    (whose store does not ask for the token): the registration goes through
    with 201; the login that follows reads the store and has the password
    verified before [jwt.sign] is called with the absent secret, and it is
    the issuer's refusal, caught by the handler, that gives the 500. *)
Theorem absent_configuration_not_refused :
  (∀ (W : Type) (X : Externals W) (w : W),
     ∃ rest,
       calls (run X (handler (mkConfig None None None) register_alice) w) =
         fetch "undefined/users:alice"
           (mkOptions "GET"
              [("Authorization", "Bearer undefined"); ("Content-Type", "application/json")]
              None)
         :: rest) ∧
  outcome (run sample (handler no_credentials_config register_alice) empty_world) =
    Normal (mkResponse 201 (JObj [("message", JStr "User registered successfully.");
                                  ("userId", JStr "r1")])) ∧
  calls (run sample (handler no_credentials_config register_alice) empty_world) =
    [fetch "https://kv.example/users:alice"
       (mkOptions "GET"
          [("Authorization", "Bearer undefined"); ("Content-Type", "application/json")]
          None);
     bcrypt_hash (JStr "s3cret") 10;
     crypto_randomUUID;
     fetch "https://kv.example/users:alice"
       (mkOptions "SET"
          [("Authorization", "Bearer undefined"); ("Content-Type", "application/json")]
          (Some (credential_record "r1"
                   (hasher_hash sample_core (fit_salt (sample_random 0)) "s3cret"))))] ∧
  outcome (run sample (handler no_credentials_config login_alice)
             (alice_registered no_credentials_config)) =
    Normal (mkResponse 500
              (JObj [("error", JStr "Internal server error during authentication.");
                     ("details", JStr "secretOrPrivateKey must have a value")])) ∧
  calls (run sample (handler no_credentials_config login_alice)
           (alice_registered no_credentials_config)) =
    [fetch "https://kv.example/users:alice"
       (mkOptions "GET"
          [("Authorization", "Bearer undefined"); ("Content-Type", "application/json")]
          None);
     bcrypt_compare (JStr "s3cret")
       (JStr (hasher_hash sample_core (fit_salt (sample_random 0)) "s3cret"));
     jwt_sign (JObj [("userId", JStr "r1"); ("username", JStr "alice")]) None
       (mkSignOptions "1h");
     console_error "Authentication API error:"
       (Error "secretOrPrivateKey must have a value")].
Proof.
  split_and!.
  - intros W X w. eexists. reflexivity.
  - reflexivity.
  - reflexivity.
  - reflexivity.
  - reflexivity.
Qed.

(** * Beyond the stated claims *)

(** ** The method check, the store helper and the error path *)

Section Helper.
Context {W : Type} (X : Externals W) (cfg : Config).

(** X1.  A request with another method than POST is answered 405 at once,
    whatever its body, also none: the method check stands before the
    destructuring.  No other request is answered 405. *)
Theorem method_not_allowed (w : W) (req : Request) :
  (req_method req ≠ "POST" →
   run X (handler cfg req) w =
     mkRun (Normal (mkResponse 405 (JObj [("error", JStr "Method Not Allowed")]))) w []) ∧
  (∀ resp, outcome (run X (handler cfg req) w) = Normal resp →
     status resp = 405 → req_method req ≠ "POST").
Proof.
  split.
  - intros Hm. unfold handler. by apply String.eqb_neq in Hm as ->.
  - intros resp Hrun Hst Hm.
    destruct (destructure "req.body" "action" (req_body req)) as [body|] eqn:Hbody.
    2: { unfold handler in Hrun. rewrite Hbody, Hm in Hrun. done. }
    revert Hrun. unfold handler. rewrite Hm. cbn [String.eqb Ascii.eqb Bool.eqb negb].
    intros Hrun. run_cases.
Qed.

(** The one call of [kvRequest] and the world it leaves. *)
Lemma kvRequest_one_call (method path : string) (body : JsValue) (w : W) :
  calls (run X (kvRequest cfg method path body) w) = [kv_call cfg method path body] ∧
  final (run X (kvRequest cfg method path body) w) = (X (kv_call cfg method path body) w).2.
Proof.
  unfold kvRequest, await, mbind, Prog_bind, lift. cbn.
  destruct (X (kv_call cfg method path body) w) as [[[ok [d|e]]|e] w1]; cbn; [|done..].
  destruct ok; cbn; [done|].
  destruct (get_prop d "error") as [err|e']; cbn; [|done].
  by destruct (to_string _).
Qed.

(** X2.  [kvRequest] makes one call, the [fetch], and returns the JSON of the
    answer exactly when the answer has a success status and a body that
    parses. *)
Theorem kvRequest_returns (method path : string) (body : JsValue) (w : W) (data : JsValue) :
  calls (run X (kvRequest cfg method path body) w) = [kv_call cfg method path body] ∧
  final (run X (kvRequest cfg method path body) w) = (X (kv_call cfg method path body) w).2 ∧
  (outcome (run X (kvRequest cfg method path body) w) = Normal data ↔
   (X (kv_call cfg method path body) w).1 = answered data).
Proof.
  unfold kvRequest, await, answered, mbind, Prog_bind, lift. cbn.
  destruct (X (kv_call cfg method path body) w) as [[[ok [d|e]]|e] w1]; cbn.
  - destruct ok; cbn; [|destruct (get_prop d "error") as [err|e']; cbn;
                         [destruct (to_string _); cbn|]];
      split_and!; try done; try (split; intros; by simplify_eq).
  - split_and!; try done; try (split; intros; by simplify_eq).
  - split_and!; try done; try (split; intros; by simplify_eq).
Qed.

(** X3.  A failed transport and an unreadable body surface as they are: when
    [fetch] rejects, or when the body of the answer does not parse as JSON,
    whatever the status, [kvRequest] throws that very error.  The body is
    parsed before the status is looked at. *)
Theorem kvRequest_propagates (method path : string) (body : JsValue) (w : W) (e : JsError) :
  (X (kv_call cfg method path body) w).1 = Thrown e ∨
  (∃ ok, (X (kv_call cfg method path body) w).1 = Normal (mkFetchResponse ok (Thrown e))) →
  outcome (run X (kvRequest cfg method path body) w) = Thrown e.
Proof.
  unfold kvRequest, await, mbind, Prog_bind, lift. cbn.
  intros [-> | [ok ->]]; cbn; [done|]. by destruct ok.
Qed.

(** X4.  An answer without a success status is turned into an [Error]: its
    message is the [error] of the JSON body when that is a non-empty
    string, and [KV operation failed] when the body has no truthy [error]. *)
Theorem kvRequest_non_success (method path : string) (body : JsValue) (w : W)
    (data err : JsValue) :
  (X (kv_call cfg method path body) w).1 = Normal (mkFetchResponse false (Normal data)) →
  get_prop data "error" = Normal err →
  (is_truthy err = false →
   outcome (run X (kvRequest cfg method path body) w) = Thrown (Error "KV operation failed")) ∧
  (∀ message, err = JStr message → message ≠ EmptyString →
   outcome (run X (kvRequest cfg method path body) w) = Thrown (Error message)).
Proof.
  unfold kvRequest, await, mbind, Prog_bind, lift. cbn.
  intros -> Herr. cbn. rewrite Herr. cbn. split.
  - by intros ->.
  - intros message -> Hne. cbn. by apply String.eqb_neq in Hne as ->.
Qed.
End Helper.

(** ** Failures of the store *)

Section StoreFailure.
Context {W : Type} (X : Externals W) (cfg : Config).

(** X5.  For a register or a login request: when the read of the user's key
    fails, for whatever reason [kvRequest] throws, the handler logs the
    error and answers 500 with the error's message as [details].  It does
    nothing else: no hashing, no write, no token. *)
Theorem store_read_failure (w : W) (req : Request) (action username password : JsValue)
    (name : string) (e : JsError) :
  carries req action username password →
  action = JStr "register" ∨ action = JStr "login" →
  is_truthy username = true →
  is_truthy password = true →
  to_string username = Normal name →
  outcome (run X (kvRequest cfg "GET" ("/" +:+ userKey name) JNull) w) = Thrown e →
  (X (console_error "Authentication API error:" e) (X (store_get cfg name) w).2).1 = Normal () →
  outcome (run X (handler cfg req) w) =
    Normal (mkResponse 500
              (JObj [("error", JStr "Internal server error during authentication.");
                     ("details", JStr (error_message e))])) ∧
  calls (run X (handler cfg req) w) =
    [store_get cfg name; console_error "Authentication API error:" e].
Proof.
  intros Hreq Haction Hu Hp Hname Hkv Hlog.
  destruct (kvRequest_one_call X cfg "GET" ("/" +:+ userKey name) JNull w)
    as (Hcalls & Hfinal).
  rewrite (handler_serve cfg req _ _ _ Hreq). unfold serve. rewrite Hu, Hp.
  cbn [negb orb]. rewrite run_try_catch.
  assert (∀ k : JsValue → Prog HttpResponse,
            run X (bind (kvRequest cfg "GET" ("/" +:+ userKey name) JNull) k) w =
            mkRun (Thrown e) (X (store_get cfg name) w).2 [store_get cfg name]) as Hrun.
  { intros k. rewrite run_bind, Hkv, Hcalls, Hfinal. done. }
  destruct Haction as [-> | ->]; cbn [strict_eq_str String.eqb Ascii.eqb Bool.eqb];
    unfold register, login, mbind, Prog_bind; rewrite Hname; cbn [lift bind];
    rewrite Hrun; cbn [outcome final calls];
    unfold await; cbn [run bind lift outcome final calls]; rewrite Hlog; done.
Qed.
End StoreFailure.

(** An instance: the store is unreachable. *)
Lemma store_read_failure_witness :
  outcome (run (store_answering (Thrown (TypeError "fetch failed")))
             (handler sample_config register_alice) empty_world) =
    Normal (mkResponse 500
              (JObj [("error", JStr "Internal server error during authentication.");
                     ("details", JStr (error_message (TypeError "fetch failed")))])) ∧
  calls (run (store_answering (Thrown (TypeError "fetch failed")))
           (handler sample_config register_alice) empty_world) =
    [store_get sample_config "alice";
     console_error "Authentication API error:" (TypeError "fetch failed")].
Proof.
  apply (store_read_failure (store_answering (Thrown (TypeError "fetch failed")))
           sample_config empty_world register_alice
           (JStr "register") (JStr "alice") (JStr "s3cret") "alice" (TypeError "fetch failed")).
  - apply post_carries.
  - by left.
  - reflexivity.
  - reflexivity.
  - reflexivity.
  - reflexivity.
  - reflexivity.
Defined.

(** ** Registration of a new user *)

Section NewUser.
Context {W : Type} (X : Externals W) (cfg : Config).

(** X6.  A register request for a user whose key the store answers with a falsy
    [result]: when the hasher returns a digest, an identifier is drawn and
    the store accepts the write, the answer is 201 with that identifier, and
    the run is the read, the hashing with 10 rounds, the draw and the write
    of [{userId, hashedPassword}] under the same key, in this order. *)
Theorem register_new_user (w : W) (req : Request) (username password : JsValue)
    (name hashedPassword userId : string) (data result stored : JsValue) :
  carries req (JStr "register") username password →
  is_truthy username = true →
  is_truthy password = true →
  to_string username = Normal name →
  (X (store_get cfg name) w).1 = answered data →
  get_prop data "result" = Normal result →
  is_truthy result = false →
  let w1 := (X (store_get cfg name) w).2 in
  (X (bcrypt_hash password 10) w1).1 = Normal hashedPassword →
  let w2 := (X (bcrypt_hash password 10) w1).2 in
  (X crypto_randomUUID w2).1 = Normal userId →
  let w3 := (X crypto_randomUUID w2).2 in
  (X (store_set cfg name (credential_record userId hashedPassword)) w3).1 = answered stored →
  outcome (run X (handler cfg req) w) =
    Normal (mkResponse 201 (JObj [("message", JStr "User registered successfully.");
                                  ("userId", JStr userId)])) ∧
  calls (run X (handler cfg req) w) =
    [store_get cfg name; bcrypt_hash password 10; crypto_randomUUID;
     store_set cfg name (credential_record userId hashedPassword)] ∧
  final (run X (handler cfg req) w) =
    (X (store_set cfg name (credential_record userId hashedPassword)) w3).2.
Proof.
  intros Hreq Hu Hp Hname Hget Hres Hfalsy w1 Hhash w2 Huuid w3 Hset.
  subst w1 w2 w3.
  rewrite (handler_serve cfg req _ _ _ Hreq).
  unfold serve, register, store_get, store_set, credential_record, answered in *.
  rewrite Hu, Hp, Hname.
  destruct (X _ w) as [a w1] eqn:E in Hget. rewrite E in Hhash, Huuid, Hset.
  destruct (X (bcrypt_hash _ _) _) as [b w2] eqn:E2 in Hhash. rewrite E2 in Huuid, Hset.
  destruct (X crypto_randomUUID _) as [c w3] eqn:E3 in Huuid. rewrite E3 in Hset.
  destruct (X (kv_call _ "SET" _ _) _) as [d w4] eqn:E4 in Hset.
  cbn in *. rewrite E. subst a. cbn. rewrite Hres. cbn. rewrite Hfalsy. cbn.
  rewrite E2. subst b. cbn. rewrite E3. subst c. cbn. rewrite E4. subst d. cbn.
  done.
Qed.
End NewUser.

(** An instance: alice registers in the empty sample world. *)
Lemma register_new_user_witness :
  outcome (run sample (handler sample_config register_alice) empty_world) =
    Normal (mkResponse 201 (JObj [("message", JStr "User registered successfully.");
                                  ("userId", JStr "r1")])) ∧
  calls (run sample (handler sample_config register_alice) empty_world) =
    [store_get sample_config "alice"; bcrypt_hash (JStr "s3cret") 10; crypto_randomUUID;
     store_set sample_config "alice"
       (credential_record "r1" (hasher_hash sample_core (fit_salt (sample_random 0)) "s3cret"))] ∧
  final (run sample (handler sample_config register_alice) empty_world) =
    alice_registered sample_config.
Proof.
  eapply (register_new_user sample sample_config empty_world register_alice
            (JStr "alice") (JStr "s3cret") "alice").
  - apply post_carries.
  - reflexivity.
  - reflexivity.
  - reflexivity.
  - reflexivity.
  - reflexivity.
  - reflexivity.
  - reflexivity.
  - reflexivity.
  - reflexivity.
Defined.

(** ** What every run keeps to *)

Section Discipline.
Context {W : Type} (X : Externals W) (cfg : Config).

(** What stands before a store write in a run. *)
Lemma store_write_guard (w : W) (req : Request) (c : Call) :
  c ∈ calls (run X (handler cfg req) w) →
  is_store_write c = true →
  ∃ (name : string) (data result : JsValue) (hashedPassword userId : string) (rest : list Call),
    prop (req_body req) "action" = JStr "register" ∧
    to_string (prop (req_body req) "username") = Normal name ∧
    (X (store_get cfg name) w).1 = answered data ∧
    get_prop data "result" = Normal result ∧
    is_truthy result = false ∧
    c = store_set cfg name (credential_record userId hashedPassword) ∧
    calls (run X (handler cfg req) w) =
      store_get cfg name :: bcrypt_hash (prop (req_body req) "password") 10
      :: crypto_randomUUID :: c :: rest.
Proof.
  intros Hc Hwrite.
  destruct (destructure "req.body" "action" (req_body req)) as [body|] eqn:Hbody.
  2: { unfold handler in Hc. rewrite Hbody in Hc.
       destruct (negb _); simpl in Hc; by apply elem_of_nil in Hc. }
  assert (body = req_body req) as -> by (destruct (req_body req); by simplify_eq/=).
  run_cases.
  all: repeat (apply elem_of_cons in Hc as [->|Hc]); try (by apply elem_of_nil in Hc).
  all: try discriminate Hwrite.
  all: match goal with
       | H : strict_eq_str _ "register" = true |- _ => apply strict_eq_str_true in H
       end.
  all: repeat match goal with r : FetchResponse |- _ => destruct r end.
  all: repeat match goal with H : negb _ = false |- _ => apply negb_false_iff in H end.
  all: simplify_eq/=.
  all: eexists _, _, _, _, _, _; split_and!; try done; eassumption.
Qed.

(** X7.  A store write is only made by a register request, and only after the
    read of the same key was answered with a falsy [result]: the handler
    never writes over a record it has seen.  The write is the fourth call of
    its run, after the read, the hashing and the draw. *)
Theorem write_only_after_empty_read (w : W) (req : Request) (c : Call) :
  c ∈ calls (run X (handler cfg req) w) →
  is_store_write c = true →
  ∃ (name : string) (data result : JsValue) (hashedPassword userId : string) (rest : list Call),
    prop (req_body req) "action" = JStr "register" ∧
    to_string (prop (req_body req) "username") = Normal name ∧
    (X (store_get cfg name) w).1 = answered data ∧
    get_prop data "result" = Normal result ∧
    is_truthy result = false ∧
    c = store_set cfg name (credential_record userId hashedPassword) ∧
    calls (run X (handler cfg req) w) =
      store_get cfg name :: bcrypt_hash (prop (req_body req) "password") 10
      :: crypto_randomUUID :: c :: rest.
Proof. apply store_write_guard. Qed.

(** X8.  A request whose action is not [register], a login in particular, makes
    no store write: it only reads. *)
Theorem only_register_writes (w : W) (req : Request) :
  prop (req_body req) "action" ≠ JStr "register" →
  existsb is_store_write (calls (run X (handler cfg req) w)) = false.
Proof.
  intros Haction. apply not_true_is_false. intros Hex.
  apply existsb_exists in Hex as (c & Hc%list_elem_of_In & Hwrite).
  by destruct (store_write_guard w req c Hc Hwrite) as (? & ? & ? & ? & ? & ? & ? & _).
Qed.

(** X9.  The handler contacts the store only about the key of the request's
    user: every [fetch] of a run is the read of that key or the write of a
    credential record to it, at the configured address and with the
    configured bearer token. *)
Theorem store_calls_own_key (w : W) (req : Request) (url : string) (options : FetchOptions) :
  fetch url options ∈ calls (run X (handler cfg req) w) →
  ∃ name,
    to_string (prop (req_body req) "username") = Normal name ∧
    (fetch url options = store_get cfg name ∨
     ∃ userId hashedPassword,
       fetch url options = store_set cfg name (credential_record userId hashedPassword)).
Proof.
  intros Hc.
  destruct (destructure "req.body" "action" (req_body req)) as [body|] eqn:Hbody.
  2: { unfold handler in Hc. rewrite Hbody in Hc.
       destruct (negb _); simpl in Hc; by apply elem_of_nil in Hc. }
  assert (body = req_body req) as -> by (destruct (req_body req); by simplify_eq/=).
  run_cases.
  all: repeat (apply elem_of_cons in Hc as [Hc|Hc]); try (by apply elem_of_nil in Hc).
  all: try discriminate Hc.
  all: eexists; split; [done|].
  all: first [ by left | right; eexists _, _; exact Hc ].
Qed.

(** X10.  The handler throws exactly on a POST request without a body; every
    other request is answered, with one of seven statuses, as long as
    [console.error] itself returns. *)
Theorem handler_answers (w : W) (req : Request) :
  console_returns X →
  ((∃ e, outcome (run X (handler cfg req) w) = Thrown e) ↔
   req_method req = "POST" ∧ (req_body req = JUndefined ∨ req_body req = JNull)) ∧
  (∀ resp, outcome (run X (handler cfg req) w) = Normal resp →
     status resp ∈ [200; 201; 400; 401; 405; 409; 500]).
Proof.
  intros Hconsole. split; [split|].
  - intros [e Hrun].
    destruct (req_body req) eqn:Hb; revert Hrun; unfold handler; rewrite Hb; intros Hrun.
    1,2: destruct (String.eqb_spec (req_method req) "POST"); [by auto|done].
    all: exfalso; run_cases;
      match goal with
      | H : (X (console_error _ _) _).1 = Thrown _ |- _ => by rewrite Hconsole in H
      end.
  - intros [Hm [Hb | Hb]]; unfold handler; rewrite Hm, Hb; by eexists.
  - intros resp Hrun. run_cases; set_solver.
Qed.

(** X11.  Every 500 is logged: a response with status 500 has the two fields
    [error] and [details], the latter the message of an error caught by the
    [try] block, and the last call of the run is the [console.error] of
    that error. *)
Theorem server_error_logged (w : W) (req : Request) (resp : HttpResponse) :
  outcome (run X (handler cfg req) w) = Normal resp →
  status resp = 500 →
  ∃ e,
    json resp = JObj [("error", JStr "Internal server error during authentication.");
                      ("details", JStr (error_message e))] ∧
    last (calls (run X (handler cfg req) w)) =
      Some (console_error "Authentication API error:" e).
Proof.
  intros Hrun Hst. revert Hrun. run_cases; intros Hrun; simplify_eq/=.
  all: eexists; split; [|reflexivity]; reflexivity.
Qed.
End Discipline.

(** ** Instances in the sample world *)

Lemma sample_console_returns : console_returns sample.
Proof. intros label e w. reflexivity. Qed.

(** An instance: the store cannot be reached. *)
Lemma kvRequest_propagates_witness :
  outcome (run (store_answering (Thrown (TypeError "fetch failed")))
             (kvRequest sample_config "GET" "/users:alice" JNull) empty_world) =
    Thrown (TypeError "fetch failed").
Proof.
  apply (kvRequest_propagates (store_answering (Thrown (TypeError "fetch failed")))
           sample_config "GET" "/users:alice" JNull empty_world (TypeError "fetch failed")).
  left. reflexivity.
Defined.

(** An instance: the store refuses the token. *)
Lemma kvRequest_non_success_witness :
  outcome (run (store_answering
                  (Normal (mkFetchResponse false (Normal (JObj [("error", JStr "Unauthorized")])))))
             (kvRequest sample_config "GET" "/users:alice" JNull) empty_world) =
    Thrown (Error "Unauthorized").
Proof.
  destruct (kvRequest_non_success
              (store_answering
                 (Normal (mkFetchResponse false (Normal (JObj [("error", JStr "Unauthorized")])))))
              sample_config "GET" "/users:alice" JNull empty_world
              (JObj [("error", JStr "Unauthorized")]) (JStr "Unauthorized"))
    as [_ Hmessage].
  - reflexivity.
  - reflexivity.
  - apply (Hmessage "Unauthorized"); [reflexivity | discriminate].
Defined.

(** An instance: the write of alice's registration. *)
Lemma write_only_after_empty_read_witness :
  ∃ (name : string) (data result : JsValue) (hashedPassword userId : string) (rest : list Call),
    prop (req_body register_alice) "action" = JStr "register" ∧
    to_string (prop (req_body register_alice) "username") = Normal name ∧
    (sample (store_get sample_config name) empty_world).1 = answered data ∧
    get_prop data "result" = Normal result ∧
    is_truthy result = false ∧
    store_set sample_config "alice"
      (credential_record "r1" (hasher_hash sample_core (fit_salt (sample_random 0)) "s3cret")) =
      store_set sample_config name (credential_record userId hashedPassword) ∧
    calls (run sample (handler sample_config register_alice) empty_world) =
      store_get sample_config name :: bcrypt_hash (prop (req_body register_alice) "password") 10
      :: crypto_randomUUID
      :: store_set sample_config "alice"
           (credential_record "r1" (hasher_hash sample_core (fit_salt (sample_random 0)) "s3cret"))
      :: rest.
Proof.
  apply (write_only_after_empty_read sample sample_config empty_world register_alice).
  - apply list_elem_of_lookup_2 with 3%nat. reflexivity.
  - reflexivity.
Defined.

(** An instance: alice logs in after her registration. *)
Lemma only_register_writes_witness :
  existsb is_store_write
    (calls (run sample (handler sample_config login_alice) (alice_registered sample_config))) =
    false.
Proof.
  apply (only_register_writes sample sample_config (alice_registered sample_config) login_alice).
  simpl. discriminate.
Defined.

(** Numbers as the language prints them: in decimal up to 2^53, rounded to
    the nearest double beyond, in exponent form from 10^21 on. *)
Example number_text_values :
  number_text 4097 = "4097" ∧
  number_text (-12) = "-12" ∧
  number_text 9007199254740993 = "9007199254740992" ∧
  number_text (2 ^ 60) = "1152921504606847000" ∧
  number_text (10 ^ 21 - 1) = "1e+21" ∧
  number_text (10 ^ 21) = "1e+21" ∧
  number_text (2 ^ 70) = "1.1805916207174113e+21" ∧
  number_text 123456789012345678901234 = "1.2345678901234569e+23" ∧
  number_text (2 ^ 1024) = "Infinity".
Proof. by vm_compute. Qed.

(** An instance: the read of the key of a user whose name is the number
    10^21, which is [users:1e+21]. *)
Lemma store_calls_own_key_witness :
  ∃ name,
    to_string (prop (req_body (post (JStr "register") (JNum 1000000000000000000000)
                                 (JStr "s3cret"))) "username") = Normal name ∧
    (fetch "https://kv.example/users:1e+21"
       (mkOptions "GET" [("Authorization", "Bearer store-token");
                         ("Content-Type", "application/json")] None) =
       store_get sample_config name ∨
     ∃ userId hashedPassword,
       fetch "https://kv.example/users:1e+21"
         (mkOptions "GET" [("Authorization", "Bearer store-token");
                           ("Content-Type", "application/json")] None) =
         store_set sample_config name (credential_record userId hashedPassword)).
Proof.
  apply (store_calls_own_key sample sample_config empty_world
           (post (JStr "register") (JNum 1000000000000000000000) (JStr "s3cret"))).
  apply list_elem_of_lookup_2 with 0%nat. vm_compute. reflexivity.
Defined.

(** An instance: alice's registration. *)
Lemma handler_answers_witness :
  ((∃ e, outcome (run sample (handler sample_config register_alice) empty_world) = Thrown e) ↔
   req_method register_alice = "POST" ∧
   (req_body register_alice = JUndefined ∨ req_body register_alice = JNull)) ∧
  (∀ resp, outcome (run sample (handler sample_config register_alice) empty_world) = Normal resp →
     status resp ∈ [200; 201; 400; 401; 405; 409; 500]).
Proof.
  apply (handler_answers sample sample_config empty_world register_alice).
  apply sample_console_returns.
Defined.

(** An instance: the store is unreachable when alice registers. *)
Lemma server_error_logged_witness :
  ∃ e,
    json (mkResponse 500
            (JObj [("error", JStr "Internal server error during authentication.");
                   ("details", JStr "fetch failed")])) =
      JObj [("error", JStr "Internal server error during authentication.");
            ("details", JStr (error_message e))] ∧
    last (calls (run (store_answering (Thrown (TypeError "fetch failed")))
                   (handler sample_config register_alice) empty_world)) =
      Some (console_error "Authentication API error:" e).
Proof.
  apply (server_error_logged (store_answering (Thrown (TypeError "fetch failed")))
           sample_config empty_world register_alice).
  - reflexivity.
  - reflexivity.
Defined.

(** ** The text extraction endpoint *)

Section ExtractText.
Import Proxy.
Context {W : Type} (X : Proxy.Externals W) (ops : StringOps) (key : option string).

Local Abbreviation handler := (ExtractText.handler ops key).

(** X12.  Without an API key, unset or empty, every POST request, whatever its
    body, also none, is answered 500 with
    [API key is not configured on the server.]; the body is not read and the
    remote service is not contacted. *)
Theorem extract_text_missing_key (w : W) (request : Request) :
  proxy_console_returns X →
  is_truthy (env_value key) = false →
  req_method request = "POST" →
  outcome (run X (handler request) w) =
    Normal (mkReply cors_headers 500
              (JsonBody (JObj [("error", JStr "API key is not configured on the server.")]))) ∧
  calls (run X (handler request) w) =
    [console_log "--- [api/extract-text] Function Invoked ---";
     console_error [Text "FATAL: GOOGLE_API_KEY environment variable not set."]].
Proof.
  intros (Hlog & Hwarn & Herror) Hkey Hm.
  unfold ExtractText.handler, await, lift, mbind, Prog_bind. rewrite Hm, Hkey. cbn in *.
  rewrite Hlog. cbn. rewrite Herror. done.
Qed.

(** X13.  As long as the console calls return, the handler answers every request,
    also a POST without a body or with data it cannot handle: nothing
    thrown inside it escapes.  Every reply carries the three CORS headers
    and no other. *)
Theorem extract_text_always_replies (w : W) (request : Request) :
  proxy_console_returns X →
  ∃ reply,
    outcome (run X (handler request) w) = Normal reply ∧
    reply_headers reply = cors_headers.
Proof.
  intros (Hlog & Hwarn & Herror).
  proxy_cases.
  all: try (eexists; split; reflexivity).
  all: repeat match goal with
       | H : (X (console_log _) _).1 = Thrown _ |- _ => rewrite Hlog in H
       | H : (X (console_warn _) _).1 = Thrown _ |- _ => rewrite Hwarn in H
       | H : (X (console_error _) _).1 = Thrown _ |- _ => rewrite Herror in H
       end; try done.
Qed.

(** X14.  With a key, a POST request whose body has no truthy [pdfData] is
    answered 400 with [No PDF data provided.]; the remote service is not
    contacted. *)
Theorem extract_text_no_data (w : W) (request : Request) :
  proxy_console_returns X →
  is_truthy (env_value key) = true →
  req_method request = "POST" →
  destructure "request.body" "pdfData" (req_body request) = Normal (req_body request) →
  is_truthy (prop (req_body request) "pdfData") = false →
  outcome (run X (handler request) w) =
    Normal (mkReply cors_headers 400 (JsonBody (JObj [("error", JStr "No PDF data provided.")]))) ∧
  existsb is_fetch (calls (run X (handler request) w)) = false.
Proof.
  intros (Hlog & Hwarn & Herror) Hkey Hm Hbody Hdata.
  unfold ExtractText.handler, await, lift, mbind, Prog_bind.
  rewrite Hm, Hkey, Hbody. cbn in *. rewrite Hlog. cbn. rewrite Hlog. cbn.
  rewrite Hdata. cbn. rewrite Hwarn. done.
Qed.

(** X15.  The remote service is asked at most once per request, and only for a
    POST request with a truthy [pdfData] when the key is set and not empty.
    The request is a POST of JSON to the annotation address with the key as
    query, and its body holds [pdfData] unchanged as the content of a PDF
    input with the feature [DOCUMENT_TEXT_DETECTION]. *)
Theorem extract_text_fetch_guard (w : W) (request : Request) (url : string) (init : FetchInit) :
  fetch url init ∈ calls (run X (handler request) w) →
  ∃ k,
    key = Some k ∧ k ≠ EmptyString ∧
    req_method request = "POST" ∧
    is_truthy (prop (req_body request) "pdfData") = true ∧
    url = "https://vision.googleapis.com/v1/files:annotate?key=" +:+ k ∧
    init = mkInit "POST" [("Content-Type", "application/json")]
             (JObj [("requests",
                     JArr [JObj [("inputConfig",
                                  JObj [("content", prop (req_body request) "pdfData");
                                        ("mimeType", JStr "application/pdf")]);
                                 ("features",
                                  JArr [JObj [("type", JStr "DOCUMENT_TEXT_DETECTION")]])]])]) ∧
    length (List.filter is_fetch (calls (run X (handler request) w))) = 1%nat.
Proof.
  intros Hc.
  destruct (destructure "request.body" "pdfData" (req_body request)) as [body|] eqn:Hbody.
  - assert (body = req_body request) as ->
      by (destruct (req_body request); by simplify_eq/=).
    destruct key as [k|]; proxy_cases.
    all: repeat (apply elem_of_cons in Hc as [Hc|Hc]); try (by apply elem_of_nil in Hc).
    all: try discriminate Hc.
    all: simplify_eq.
    all: repeat match goal with
         | H : negb _ = false |- _ => apply negb_false_iff in H
         | H : negb _ = true |- _ => apply negb_true_iff in H
         end.
    all: exists k; split_and!; try done.
    all: try (by apply String.eqb_neq).
    all: try (by apply String.eqb_eq).
  - destruct key as [k|]; proxy_cases.
    all: repeat (apply elem_of_cons in Hc as [Hc|Hc]); try (by apply elem_of_nil in Hc).
    all: discriminate Hc.
Qed.

(** X16.  When the remote service answers without a success status, its status is
    passed on, with the [message] of the [error] in its JSON body when that
    is a non-empty string, and with a fixed message when there is none. *)
Theorem extract_text_upstream_error (w : W) (request : Request) (k data : string)
    (status : Z) (errorData err : JsValue) (buffer : Completion string) :
  proxy_console_returns X →
  key = Some k →
  k ≠ EmptyString →
  req_method request = "POST" →
  destructure "request.body" "pdfData" (req_body request) = Normal (req_body request) →
  prop (req_body request) "pdfData" = JStr data →
  data ≠ EmptyString →
  (∀ url init w', (X (fetch url init) w').1 =
                  Normal (mkUpstream false status (Normal errorData) buffer)) →
  get_prop errorData "error" = Normal err →
  (∀ message, opt_prop err "message" = JStr message → message ≠ EmptyString →
     outcome (run X (handler request) w) =
       Normal (mkReply cors_headers status
                 (JsonBody (JObj [("error",
                                   JStr ("Vision API request failed: " +:+ message))])))) ∧
  (is_truthy (opt_prop err "message") = false →
     outcome (run X (handler request) w) =
       Normal (mkReply cors_headers status
                 (JsonBody (JObj [("error",
                                   JStr "Vision API request failed: An unknown error occurred with the Vision API.")])))).
Proof.
  intros (Hlog & Hwarn & Herror) -> Hk Hm Hbody Hdata Hne Hfetch Herr.
  apply String.eqb_neq in Hk, Hne.
  unfold ExtractText.handler, await, lift, mbind, Prog_bind, or_else.
  rewrite Hm. cbn in *. rewrite Hk. cbn.
  repeat (rewrite ?Hlog, ?Herror, ?Hfetch, ?Hbody, ?Hdata, ?Hne; cbn). rewrite Herr. cbn.
  split.
  - intros message -> Hmsg%String.eqb_neq. cbn. rewrite Hmsg. cbn. done.
  - intros ->. done.
Qed.

(** X17.  When the remote service answers with a success status and a JSON body,
    the answer is 200 with that body unchanged. *)
Theorem extract_text_success (w : W) (request : Request) (k data : string)
    (status : Z) (visionData : JsValue) (buffer : Completion string) :
  proxy_console_returns X →
  key = Some k →
  k ≠ EmptyString →
  req_method request = "POST" →
  destructure "request.body" "pdfData" (req_body request) = Normal (req_body request) →
  prop (req_body request) "pdfData" = JStr data →
  data ≠ EmptyString →
  (∀ url init w', (X (fetch url init) w').1 =
                  Normal (mkUpstream true status (Normal visionData) buffer)) →
  outcome (run X (handler request) w) =
    Normal (mkReply cors_headers 200 (JsonBody visionData)).
Proof.
  intros (Hlog & Hwarn & Herror) -> Hk Hm Hbody Hdata Hne Hfetch.
  apply String.eqb_neq in Hk, Hne.
  unfold ExtractText.handler, await, lift, mbind, Prog_bind, or_else.
  rewrite Hm. cbn in *. rewrite Hk. cbn.
  repeat (rewrite ?Hlog, ?Herror, ?Hfetch, ?Hbody, ?Hdata, ?Hne; cbn). done.
Qed.
End ExtractText.

(** ** Instances for the text extraction endpoint *)

Lemma remote_console_returns (answer : Completion Proxy.Upstream) :
  proxy_console_returns (remote answer).
Proof. by split_and!. Qed.

Lemma long_text_code_units : Proxy.code_units plain_ops long_text = 4097.
Proof. by vm_compute. Qed.

(** An instance: a POST without a body when no key is set. *)
Lemma extract_text_missing_key_witness :
  Proxy.outcome (Proxy.run (remote (Thrown (TypeError "fetch failed")))
                   (Proxy.ExtractText.handler plain_ops None (mkRequest "POST" JUndefined)) ()) =
    Normal (Proxy.mkReply Proxy.cors_headers 500
              (Proxy.JsonBody
                 (JObj [("error", JStr "API key is not configured on the server.")]))) ∧
  Proxy.calls (Proxy.run (remote (Thrown (TypeError "fetch failed")))
                 (Proxy.ExtractText.handler plain_ops None (mkRequest "POST" JUndefined)) ()) =
    [Proxy.console_log "--- [api/extract-text] Function Invoked ---";
     Proxy.console_error [Proxy.Text "FATAL: GOOGLE_API_KEY environment variable not set."]].
Proof.
  apply (extract_text_missing_key (remote (Thrown (TypeError "fetch failed"))) plain_ops None ()
           (mkRequest "POST" JUndefined)).
  - apply remote_console_returns.
  - reflexivity.
  - reflexivity.
Defined.

(** An instance: a POST without a body when the key is set. *)
Lemma extract_text_always_replies_witness :
  ∃ reply,
    Proxy.outcome (Proxy.run (remote (Thrown (TypeError "fetch failed")))
                     (Proxy.ExtractText.handler plain_ops (Some "k") (mkRequest "POST" JUndefined))
                     ()) = Normal reply ∧
    Proxy.reply_headers reply = Proxy.cors_headers.
Proof.
  apply (extract_text_always_replies (remote (Thrown (TypeError "fetch failed"))) plain_ops
           (Some "k") () (mkRequest "POST" JUndefined)).
  apply remote_console_returns.
Defined.

(** An instance: a POST with an empty object as body. *)
Lemma extract_text_no_data_witness :
  Proxy.outcome (Proxy.run (remote (Thrown (TypeError "fetch failed")))
                   (Proxy.ExtractText.handler plain_ops (Some "k") (mkRequest "POST" (JObj [])))
                   ()) =
    Normal (Proxy.mkReply Proxy.cors_headers 400
              (Proxy.JsonBody (JObj [("error", JStr "No PDF data provided.")]))) ∧
  existsb is_fetch
    (Proxy.calls (Proxy.run (remote (Thrown (TypeError "fetch failed")))
                    (Proxy.ExtractText.handler plain_ops (Some "k") (mkRequest "POST" (JObj [])))
                    ())) = false.
Proof.
  apply (extract_text_no_data (remote (Thrown (TypeError "fetch failed"))) plain_ops (Some "k") ()
           (mkRequest "POST" (JObj []))).
  - apply remote_console_returns.
  - reflexivity.
  - reflexivity.
  - reflexivity.
  - reflexivity.
Defined.

(** An instance: the request made for a document. *)
Lemma extract_text_fetch_guard_witness :
  ∃ k,
    Some "k" = Some k ∧ k ≠ EmptyString ∧
    req_method (mkRequest "POST" (JObj [("pdfData", JStr "JVBERi0")])) = "POST" ∧
    is_truthy (prop (req_body (mkRequest "POST" (JObj [("pdfData", JStr "JVBERi0")]))) "pdfData")
      = true ∧
    "https://vision.googleapis.com/v1/files:annotate?key=k" =
      "https://vision.googleapis.com/v1/files:annotate?key=" +:+ k ∧
    Proxy.mkInit "POST" [("Content-Type", "application/json")]
      (JObj [("requests",
              JArr [JObj [("inputConfig",
                           JObj [("content", JStr "JVBERi0");
                                 ("mimeType", JStr "application/pdf")]);
                          ("features",
                           JArr [JObj [("type", JStr "DOCUMENT_TEXT_DETECTION")]])]])]) =
    Proxy.mkInit "POST" [("Content-Type", "application/json")]
      (JObj [("requests",
              JArr [JObj [("inputConfig",
                           JObj [("content",
                                  prop (req_body (mkRequest "POST"
                                                    (JObj [("pdfData", JStr "JVBERi0")])))
                                    "pdfData");
                                 ("mimeType", JStr "application/pdf")]);
                          ("features",
                           JArr [JObj [("type", JStr "DOCUMENT_TEXT_DETECTION")]])]])]) ∧
    length (List.filter is_fetch
              (Proxy.calls (Proxy.run (remote (Thrown (TypeError "fetch failed")))
                              (Proxy.ExtractText.handler plain_ops (Some "k")
                                 (mkRequest "POST" (JObj [("pdfData", JStr "JVBERi0")])))
                              ()))) = 1%nat.
Proof.
  apply (extract_text_fetch_guard (remote (Thrown (TypeError "fetch failed"))) plain_ops
           (Some "k") () (mkRequest "POST" (JObj [("pdfData", JStr "JVBERi0")]))).
  apply list_elem_of_In. cbn. repeat (first [left; reflexivity | right]).
Defined.

(** An instance: the remote service refuses the key. *)
Lemma extract_text_upstream_error_witness :
  Proxy.outcome
    (Proxy.run
       (remote (Normal (Proxy.mkUpstream false 403
                          (Normal (JObj [("error", JObj [("message", JStr "Forbidden")])]))
                          (Thrown (TypeError "body used already")))))
       (Proxy.ExtractText.handler plain_ops (Some "k")
          (mkRequest "POST" (JObj [("pdfData", JStr "JVBERi0")]))) ()) =
    Normal (Proxy.mkReply Proxy.cors_headers 403
              (Proxy.JsonBody
                 (JObj [("error", JStr ("Vision API request failed: " +:+ "Forbidden"))]))).
Proof.
  destruct (extract_text_upstream_error
              (remote (Normal (Proxy.mkUpstream false 403
                                 (Normal (JObj [("error", JObj [("message", JStr "Forbidden")])]))
                                 (Thrown (TypeError "body used already")))))
              plain_ops (Some "k") () (mkRequest "POST" (JObj [("pdfData", JStr "JVBERi0")]))
              "k" "JVBERi0" 403 (JObj [("error", JObj [("message", JStr "Forbidden")])])
              (JObj [("message", JStr "Forbidden")]) (Thrown (TypeError "body used already")))
    as [Hmessage _].
  - apply remote_console_returns.
  - reflexivity.
  - discriminate.
  - reflexivity.
  - reflexivity.
  - reflexivity.
  - discriminate.
  - reflexivity.
  - reflexivity.
  - apply (Hmessage "Forbidden"); [reflexivity | discriminate].
Defined.

(** An instance: the remote service answers with its annotations. *)
Lemma extract_text_success_witness :
  Proxy.outcome
    (Proxy.run
       (remote (Normal (Proxy.mkUpstream true 200 (Normal (JObj [("responses", JArr [])]))
                          (Thrown (TypeError "body used already")))))
       (Proxy.ExtractText.handler plain_ops (Some "k")
          (mkRequest "POST" (JObj [("pdfData", JStr "JVBERi0")]))) ()) =
    Normal (Proxy.mkReply Proxy.cors_headers 200
              (Proxy.JsonBody (JObj [("responses", JArr [])]))).
Proof.
  apply (extract_text_success
           (remote (Normal (Proxy.mkUpstream true 200 (Normal (JObj [("responses", JArr [])]))
                              (Thrown (TypeError "body used already")))))
           plain_ops (Some "k") () (mkRequest "POST" (JObj [("pdfData", JStr "JVBERi0")]))
           "k" "JVBERi0" 200 (JObj [("responses", JArr [])])
           (Thrown (TypeError "body used already"))).
  - apply remote_console_returns.
  - reflexivity.
  - discriminate.
  - reflexivity.
  - reflexivity.
  - reflexivity.
  - discriminate.
  - reflexivity.
Defined.

(** ** The text analysis endpoint *)

Section AnalyzeText.
Import Proxy.
Context {W : Type} (X : Proxy.Externals W) (ops : StringOps) (key : option string).

Local Abbreviation handler := (AnalyzeText.handler ops key).

(** X18.  As long as the console calls return, the handler answers every request
    and every reply carries the three CORS headers and no other.  Without
    an API key, unset or empty, a POST request is answered 500 with
    [API key is not configured on the server.], before its body is read and
    without a request to the remote service. *)
Theorem analyze_text_replies (w : W) (request : Request) :
  proxy_console_returns X →
  (∃ reply,
     outcome (run X (handler request) w) = Normal reply ∧
     reply_headers reply = cors_headers) ∧
  (is_truthy (env_value key) = false →
   req_method request = "POST" →
   outcome (run X (handler request) w) =
     Normal (mkReply cors_headers 500
               (JsonBody (JObj [("error", JStr "API key is not configured on the server.")]))) ∧
   existsb is_fetch (calls (run X (handler request) w)) = false).
Proof.
  intros (Hlog & Hwarn & Herror). split.
  - proxy_cases.
    all: try (eexists; split; reflexivity).
    all: repeat match goal with
         | H : (X (console_log _) _).1 = Thrown _ |- _ => rewrite Hlog in H
         | H : (X (console_warn _) _).1 = Thrown _ |- _ => rewrite Hwarn in H
         | H : (X (console_error _) _).1 = Thrown _ |- _ => rewrite Herror in H
         end; try done.
  - intros Hkey Hm.
    unfold AnalyzeText.handler, await, lift, mbind, Prog_bind. rewrite Hm, Hkey. cbn in *.
    rewrite Hlog. cbn. rewrite Herror. done.
Qed.

(** X19.  With a key, a POST request whose [prompt] is falsy, is not a string, or
    is a string that trims to the empty string is answered 400 with
    [A valid text prompt is required.]; the remote service is not
    contacted. *)
Theorem analyze_text_prompt_required (w : W) (request : Request) :
  proxy_console_returns X →
  is_truthy (env_value key) = true →
  req_method request = "POST" →
  destructure "request.body" "prompt" (req_body request) = Normal (req_body request) →
  is_truthy (prop (req_body request) "prompt") = false ∨
  (∀ s, prop (req_body request) "prompt" ≠ JStr s) ∨
  (∃ s, prop (req_body request) "prompt" = JStr s ∧ trim ops s = EmptyString) →
  outcome (run X (handler request) w) =
    Normal (mkReply cors_headers 400
              (JsonBody (JObj [("error", JStr "A valid text prompt is required.")]))) ∧
  existsb is_fetch (calls (run X (handler request) w)) = false.
Proof.
  intros (Hlog & Hwarn & Herror) Hkey Hm Hbody Hprompt.
  assert (negb (is_truthy (prop (req_body request) "prompt"))
          || AnalyzeText.not_a_prompt ops (prop (req_body request) "prompt") = true) as Hbad.
  { destruct Hprompt as [-> | [Hns | (s & -> & Htrim)]]; [done| |].
    - apply orb_true_iff. right.
      destruct (prop (req_body request) "prompt"); try done. by destruct (Hns s).
    - apply orb_true_iff. right. cbn. by rewrite Htrim. }
  unfold AnalyzeText.handler, await, lift, mbind, Prog_bind.
  rewrite Hm, Hkey, Hbody. cbn in *. rewrite Hlog. cbn. rewrite Hlog. cbn.
  rewrite Hbad. cbn. rewrite Hwarn. done.
Qed.

(** X20.  The remote service is asked once at most, and only when the key is set
    and the [prompt] of a POST request is a string that does not trim to the
    empty string.  The request is a POST of JSON to the model's address with
    the key as query; its body holds the prompt unchanged as the text of the
    only part of the only content. *)
Theorem analyze_text_fetch_guard (w : W) (request : Request) (url : string) (init : FetchInit) :
  fetch url init ∈ calls (run X (handler request) w) →
  ∃ k prompt,
    key = Some k ∧ k ≠ EmptyString ∧
    req_method request = "POST" ∧
    prop (req_body request) "prompt" = JStr prompt ∧
    prompt ≠ EmptyString ∧
    trim ops prompt ≠ EmptyString ∧
    url = "https://generativelanguage.googleapis.com/v1beta/models/gemini-2.5-flash-preview-05-20:generateContent?key="
          +:+ k ∧
    init = mkInit "POST" [("Content-Type", "application/json")]
             (JObj [("contents",
                     JArr [JObj [("parts", JArr [JObj [("text", JStr prompt)]])]])]) ∧
    length (List.filter is_fetch (calls (run X (handler request) w))) = 1%nat.
Proof.
  intros Hc.
  destruct (destructure "request.body" "prompt" (req_body request)) as [body|] eqn:Hbody.
  - assert (body = req_body request) as ->
      by (destruct (req_body request); by simplify_eq/=).
    destruct key as [k|]; proxy_cases.
    all: repeat (apply elem_of_cons in Hc as [Hc|Hc]); try (by apply elem_of_nil in Hc).
    all: try discriminate Hc.
    all: simplify_eq.
    all: match goal with
         | H : _ || _ = false |- _ => apply orb_false_iff in H as [Htruthy Hstring]
         end.
    all: unfold AnalyzeText.not_a_prompt in Hstring.
    all: destruct (prop (req_body request) "prompt") as [| | | |prompt| |] eqn:Hprompt;
      try discriminate Hstring.
    all: repeat match goal with
         | H : negb _ = false |- _ => apply negb_false_iff in H
         | H : negb _ = true |- _ => apply negb_true_iff in H
         end.
    all: cbn in Htruthy; apply negb_true_iff in Htruthy.
    all: exists k, prompt; split_and!; try done.
    all: try (by apply String.eqb_neq).
    all: try (by apply String.eqb_eq).
  - destruct key as [k|]; proxy_cases.
    all: repeat (apply elem_of_cons in Hc as [Hc|Hc]); try (by apply elem_of_nil in Hc).
    all: discriminate Hc.
Qed.

(** X21.  When the remote service answers with a success status and JSON data
    whose first candidate has, as the first part of its content, a
    non-empty string [text], the answer is 200 with [{text}]. *)
Theorem analyze_text_success (w : W) (request : Request) (k prompt text : string)
    (status : Z) (geminiData candidate content part : JsValue) (others parts : list JsValue)
    (buffer : Completion string) :
  proxy_console_returns X →
  key = Some k →
  k ≠ EmptyString →
  req_method request = "POST" →
  destructure "request.body" "prompt" (req_body request) = Normal (req_body request) →
  prop (req_body request) "prompt" = JStr prompt →
  prompt ≠ EmptyString →
  trim ops prompt ≠ EmptyString →
  (∀ url init w', (X (fetch url init) w').1 =
                  Normal (mkUpstream true status (Normal geminiData) buffer)) →
  get_prop geminiData "candidates" = Normal (JArr (candidate :: others)) →
  opt_prop candidate "content" = content →
  opt_prop content "parts" = JArr (part :: parts) →
  opt_prop part "text" = JStr text →
  text ≠ EmptyString →
  outcome (run X (handler request) w) =
    Normal (mkReply cors_headers 200 (JsonBody (JObj [("text", JStr text)]))).
Proof.
  intros (Hlog & Hwarn & Herror) -> Hk Hm Hbody Hprompt Hne Htrim Hfetch
    Hcandidates Hcontent Hparts Htext Htextne.
  apply String.eqb_neq in Hk, Hne, Htrim, Htextne.
  unfold AnalyzeText.handler, AnalyzeText.first_text, await, lift, mbind, Prog_bind, or_else.
  rewrite Hm. cbn in *. rewrite Hk. cbn.
  repeat (rewrite ?Hlog, ?Herror, ?Hfetch, ?Hbody, ?Hprompt, ?Hne, ?Htrim; cbn).
  rewrite Hcandidates. cbn. rewrite Hcontent, Hparts. cbn. rewrite Htext. cbn.
  rewrite Htextne. cbn. repeat (rewrite ?Hlog; cbn). done.
Qed.

(** X22.  When the remote service answers with a success status and JSON data
    from which no truthy text can be taken (no candidate, no part, an empty
    text), the answer is 500 and names the [blockReason] of the
    [promptFeedback] when that is a non-empty string, and an unknown reason
    when there is none. *)
Theorem analyze_text_empty_response (w : W) (request : Request) (k prompt : string)
    (status : Z) (geminiData candidates : JsValue) (buffer : Completion string) :
  proxy_console_returns X →
  key = Some k →
  k ≠ EmptyString →
  req_method request = "POST" →
  destructure "request.body" "prompt" (req_body request) = Normal (req_body request) →
  prop (req_body request) "prompt" = JStr prompt →
  prompt ≠ EmptyString →
  trim ops prompt ≠ EmptyString →
  (∀ url init w', (X (fetch url init) w').1 =
                  Normal (mkUpstream true status (Normal geminiData) buffer)) →
  get_prop geminiData "candidates" = Normal candidates →
  is_truthy (AnalyzeText.first_text ops candidates) = false →
  (∀ reason,
     opt_prop (prop geminiData "promptFeedback") "blockReason" = JStr reason →
     reason ≠ EmptyString →
     outcome (run X (handler request) w) =
       Normal (mkReply cors_headers 500
                 (JsonBody (JObj [("error",
                                   JStr ("The model's response was empty or blocked. Reason: "
                                         +:+ reason))])))) ∧
  (is_truthy (opt_prop (prop geminiData "promptFeedback") "blockReason") = false →
     outcome (run X (handler request) w) =
       Normal (mkReply cors_headers 500
                 (JsonBody (JObj [("error",
                                   JStr "The model's response was empty or blocked. Reason: Unknown reason (check server logs)")])))).
Proof.
  intros (Hlog & Hwarn & Herror) -> Hk Hm Hbody Hprompt Hne Htrim Hfetch Hcandidates Hempty.
  apply String.eqb_neq in Hk, Hne, Htrim.
  unfold AnalyzeText.handler, await, lift, mbind, Prog_bind, or_else.
  rewrite Hm. cbn in *. rewrite Hk. cbn.
  repeat (rewrite ?Hlog, ?Herror, ?Hfetch, ?Hbody, ?Hprompt, ?Hne, ?Htrim; cbn).
  rewrite Hcandidates. cbn. rewrite Hempty. cbn. rewrite Herror. cbn.
  split.
  - intros reason -> Hr%String.eqb_neq. cbn. rewrite Hr. done.
  - intros ->. done.
Qed.
End AnalyzeText.

(** ** Instances for the text analysis endpoint *)

(** An instance: a POST without a body when no key is set. *)
Lemma analyze_text_replies_witness :
  (∃ reply,
     Proxy.outcome (Proxy.run (remote (Thrown (TypeError "fetch failed")))
                      (Proxy.AnalyzeText.handler plain_ops None (mkRequest "POST" JUndefined))
                      ()) = Normal reply ∧
     Proxy.reply_headers reply = Proxy.cors_headers) ∧
  Proxy.outcome (Proxy.run (remote (Thrown (TypeError "fetch failed")))
                   (Proxy.AnalyzeText.handler plain_ops None (mkRequest "POST" JUndefined)) ()) =
    Normal (Proxy.mkReply Proxy.cors_headers 500
              (Proxy.JsonBody
                 (JObj [("error", JStr "API key is not configured on the server.")]))) ∧
  existsb is_fetch
    (Proxy.calls (Proxy.run (remote (Thrown (TypeError "fetch failed")))
                    (Proxy.AnalyzeText.handler plain_ops None (mkRequest "POST" JUndefined))
                    ())) = false.
Proof.
  destruct (analyze_text_replies (remote (Thrown (TypeError "fetch failed"))) plain_ops None ()
              (mkRequest "POST" JUndefined)) as [Hreply Hkey].
  - apply remote_console_returns.
  - split; [exact Hreply|]. apply Hkey; reflexivity.
Defined.

(** An instance: a prompt that is a number. *)
Lemma analyze_text_prompt_required_witness :
  Proxy.outcome (Proxy.run (remote (Thrown (TypeError "fetch failed")))
                   (Proxy.AnalyzeText.handler plain_ops (Some "k")
                      (mkRequest "POST" (JObj [("prompt", JNum 42)]))) ()) =
    Normal (Proxy.mkReply Proxy.cors_headers 400
              (Proxy.JsonBody (JObj [("error", JStr "A valid text prompt is required.")]))) ∧
  existsb is_fetch
    (Proxy.calls (Proxy.run (remote (Thrown (TypeError "fetch failed")))
                    (Proxy.AnalyzeText.handler plain_ops (Some "k")
                       (mkRequest "POST" (JObj [("prompt", JNum 42)]))) ())) = false.
Proof.
  apply (analyze_text_prompt_required (remote (Thrown (TypeError "fetch failed"))) plain_ops
           (Some "k") () (mkRequest "POST" (JObj [("prompt", JNum 42)]))).
  - apply remote_console_returns.
  - reflexivity.
  - reflexivity.
  - reflexivity.
  - right. left. simpl. discriminate.
Defined.

(** An instance: the request made for a prompt. *)
Lemma analyze_text_fetch_guard_witness :
  ∃ k prompt,
    Some "k" = Some k ∧ k ≠ EmptyString ∧
    req_method (mkRequest "POST" (JObj [("prompt", JStr "Summarise")])) = "POST" ∧
    prop (req_body (mkRequest "POST" (JObj [("prompt", JStr "Summarise")]))) "prompt" =
      JStr prompt ∧
    prompt ≠ EmptyString ∧
    Proxy.trim plain_ops prompt ≠ EmptyString ∧
    "https://generativelanguage.googleapis.com/v1beta/models/gemini-2.5-flash-preview-05-20:generateContent?key=k" =
      "https://generativelanguage.googleapis.com/v1beta/models/gemini-2.5-flash-preview-05-20:generateContent?key="
      +:+ k ∧
    Proxy.mkInit "POST" [("Content-Type", "application/json")]
      (JObj [("contents", JArr [JObj [("parts", JArr [JObj [("text", JStr "Summarise")]])]])]) =
    Proxy.mkInit "POST" [("Content-Type", "application/json")]
      (JObj [("contents", JArr [JObj [("parts", JArr [JObj [("text", JStr prompt)]])]])]) ∧
    length (List.filter is_fetch
              (Proxy.calls (Proxy.run (remote (Thrown (TypeError "fetch failed")))
                              (Proxy.AnalyzeText.handler plain_ops (Some "k")
                                 (mkRequest "POST" (JObj [("prompt", JStr "Summarise")])))
                              ()))) = 1%nat.
Proof.
  apply (analyze_text_fetch_guard (remote (Thrown (TypeError "fetch failed"))) plain_ops
           (Some "k") () (mkRequest "POST" (JObj [("prompt", JStr "Summarise")]))).
  apply list_elem_of_In. cbn. repeat (first [left; reflexivity | right]).
Defined.

(** An instance: the model answers with one candidate. *)
Lemma analyze_text_success_witness :
  Proxy.outcome
    (Proxy.run
       (remote (Normal (Proxy.mkUpstream true 200
                          (Normal (JObj [("candidates",
                                          JArr [JObj [("content",
                                                       JObj [("parts",
                                                              JArr [JObj [("text",
                                                                           JStr "Done")]])])]])]))
                          (Thrown (TypeError "body used already")))))
       (Proxy.AnalyzeText.handler plain_ops (Some "k")
          (mkRequest "POST" (JObj [("prompt", JStr "Summarise")]))) ()) =
    Normal (Proxy.mkReply Proxy.cors_headers 200 (Proxy.JsonBody (JObj [("text", JStr "Done")]))).
Proof.
  apply (analyze_text_success
           (remote (Normal (Proxy.mkUpstream true 200
                              (Normal (JObj [("candidates",
                                              JArr [JObj [("content",
                                                           JObj [("parts",
                                                                  JArr [JObj [("text",
                                                                               JStr "Done")]])])]])]))
                              (Thrown (TypeError "body used already")))))
           plain_ops (Some "k") () (mkRequest "POST" (JObj [("prompt", JStr "Summarise")]))
           "k" "Summarise" "Done" 200
           (JObj [("candidates",
                   JArr [JObj [("content", JObj [("parts", JArr [JObj [("text", JStr "Done")]])])]])])
           (JObj [("content", JObj [("parts", JArr [JObj [("text", JStr "Done")]])])])
           (JObj [("parts", JArr [JObj [("text", JStr "Done")]])])
           (JObj [("text", JStr "Done")]) [] []
           (Thrown (TypeError "body used already"))).
  - apply remote_console_returns.
  - reflexivity.
  - discriminate.
  - reflexivity.
  - reflexivity.
  - reflexivity.
  - discriminate.
  - simpl. discriminate.
  - reflexivity.
  - reflexivity.
  - reflexivity.
  - reflexivity.
  - reflexivity.
  - discriminate.
Defined.

(** An instance: the model blocks the prompt. *)
Lemma analyze_text_empty_response_witness :
  Proxy.outcome
    (Proxy.run
       (remote (Normal (Proxy.mkUpstream true 200
                          (Normal (JObj [("candidates", JArr []);
                                         ("promptFeedback",
                                          JObj [("blockReason", JStr "SAFETY")])]))
                          (Thrown (TypeError "body used already")))))
       (Proxy.AnalyzeText.handler plain_ops (Some "k")
          (mkRequest "POST" (JObj [("prompt", JStr "Summarise")]))) ()) =
    Normal (Proxy.mkReply Proxy.cors_headers 500
              (Proxy.JsonBody
                 (JObj [("error",
                         JStr ("The model's response was empty or blocked. Reason: "
                               +:+ "SAFETY"))]))).
Proof.
  destruct (analyze_text_empty_response
              (remote (Normal (Proxy.mkUpstream true 200
                                 (Normal (JObj [("candidates", JArr []);
                                                ("promptFeedback",
                                                 JObj [("blockReason", JStr "SAFETY")])]))
                                 (Thrown (TypeError "body used already")))))
              plain_ops (Some "k") () (mkRequest "POST" (JObj [("prompt", JStr "Summarise")]))
              "k" "Summarise" 200
              (JObj [("candidates", JArr []);
                     ("promptFeedback", JObj [("blockReason", JStr "SAFETY")])])
              (JArr []) (Thrown (TypeError "body used already")))
    as [Hreason _].
  - apply remote_console_returns.
  - reflexivity.
  - discriminate.
  - reflexivity.
  - reflexivity.
  - reflexivity.
  - discriminate.
  - simpl. discriminate.
  - reflexivity.
  - reflexivity.
  - reflexivity.
  - apply (Hreason "SAFETY"); [reflexivity | discriminate].
Defined.

(** ** The speech endpoint *)

Section GenerateAudio.
Import Proxy.
Context {W : Type} (X : Proxy.Externals W) (ops : StringOps) (key : option string).

Local Abbreviation handler := (GenerateAudio.handler ops key).

(** X23.  As long as the console calls return, the handler answers every request:
    with the three CORS headers, and with the content type [audio/mpeg]
    added exactly when it sends bytes, which it does with status 200.
    Without an API key, unset or empty, a POST request is answered 500 with
    [API key is not configured on the server.], before its body is read and
    without a request to the remote service. *)
Theorem generate_audio_replies (w : W) (request : Request) :
  proxy_console_returns X →
  (∃ reply,
     outcome (run X (handler request) w) = Normal reply ∧
     ((reply_headers reply = cors_headers ∧ ∀ audio, reply_body reply ≠ Bytes audio) ∨
      (reply_headers reply = (cors_headers ++ [("Content-Type", "audio/mpeg")])%list ∧
       reply_status reply = 200 ∧ ∃ audio, reply_body reply = Bytes audio))) ∧
  (is_truthy (env_value key) = false →
   req_method request = "POST" →
   outcome (run X (handler request) w) =
     Normal (mkReply cors_headers 500
               (JsonBody (JObj [("error", JStr "API key is not configured on the server.")]))) ∧
   existsb is_fetch (calls (run X (handler request) w)) = false).
Proof.
  intros (Hlog & Hwarn & Herror). split.
  - proxy_cases.
    all: try (eexists; split; [reflexivity|]; cbn;
              first [ by left | right; split_and!; try done; by eexists ]).
    all: repeat match goal with
         | H : (X (console_log _) _).1 = Thrown _ |- _ => rewrite Hlog in H
         | H : (X (console_warn _) _).1 = Thrown _ |- _ => rewrite Hwarn in H
         | H : (X (console_error _) _).1 = Thrown _ |- _ => rewrite Herror in H
         end; try done.
  - intros Hkey Hm.
    unfold GenerateAudio.handler, await, lift, mbind, Prog_bind. rewrite Hm, Hkey. cbn in *.
    rewrite Hlog. cbn. rewrite Herror. done.
Qed.

(** X24.  With a key, a POST request whose [text] or [voice] is falsy is answered
    400 with [Missing required parameters: text and voice.]; the remote
    service is not contacted. *)
Theorem generate_audio_parameters_required (w : W) (request : Request) :
  proxy_console_returns X →
  is_truthy (env_value key) = true →
  req_method request = "POST" →
  destructure "request.body" "text" (req_body request) = Normal (req_body request) →
  is_truthy (prop (req_body request) "text") = false ∨
  is_truthy (prop (req_body request) "voice") = false →
  outcome (run X (handler request) w) =
    Normal (mkReply cors_headers 400
              (JsonBody (JObj [("error",
                                JStr "Missing required parameters: text and voice.")]))) ∧
  existsb is_fetch (calls (run X (handler request) w)) = false.
Proof.
  intros (Hlog & Hwarn & Herror) Hkey Hm Hbody Hmissing.
  assert (negb (is_truthy (prop (req_body request) "text"))
          || negb (is_truthy (prop (req_body request) "voice")) = true) as Hbad.
  { apply orb_true_iff. destruct Hmissing as [-> | ->]; [by left | by right]. }
  unfold GenerateAudio.handler, await, lift, mbind, Prog_bind.
  rewrite Hm, Hkey, Hbody. cbn in *. rewrite Hlog. cbn. rewrite Hlog. cbn.
  rewrite Hbad. cbn. rewrite Hwarn. done.
Qed.

(** X25.  With a key and a truthy [voice], a POST request whose [text] is a string
    of more than 4096 code units is answered 400 with a message that gives
    the limit and the length of the text; the remote service is not
    contacted. *)
Theorem generate_audio_text_too_long (w : W) (request : Request) (text : string) :
  proxy_console_returns X →
  is_truthy (env_value key) = true →
  req_method request = "POST" →
  destructure "request.body" "text" (req_body request) = Normal (req_body request) →
  prop (req_body request) "text" = JStr text →
  text ≠ EmptyString →
  is_truthy (prop (req_body request) "voice") = true →
  4096 < code_units ops text →
  outcome (run X (handler request) w) =
    Normal (mkReply cors_headers 400
              (JsonBody (JObj [("error",
                                JStr ("Input text is too long. The maximum is 4096 characters, but this chunk has "
                                      +:+ number_text (code_units ops text) +:+ "."))]))) ∧
  existsb is_fetch (calls (run X (handler request) w)) = false.
Proof.
  intros (Hlog & Hwarn & Herror) Hkey Hm Hbody Htext Hne%String.eqb_neq Hvoice Hlong%Z.ltb_lt.
  unfold GenerateAudio.handler, await, lift, mbind, Prog_bind.
  rewrite Hm, Hkey, Hbody. cbn in *. rewrite Hlog. cbn. rewrite Hlog. cbn.
  rewrite Htext, Hvoice. cbn. rewrite Hne. cbn. rewrite Hlong. cbn. rewrite Hwarn. done.
Qed.

(** X26.  The remote service is asked at most once per request, and only for a
    POST request with truthy [text] and [voice] when the key is set and not
    empty, and never for a string [text] of more than 4096 code units.  The
    request is a POST of JSON to the speech address with the key as bearer
    token; its body holds [text] and [voice] unchanged, with the model
    [tts-1] and the format [mp3]. *)
Theorem generate_audio_fetch_guard (w : W) (request : Request) (url : string) (init : FetchInit) :
  fetch url init ∈ calls (run X (handler request) w) →
  ∃ k,
    key = Some k ∧ k ≠ EmptyString ∧
    req_method request = "POST" ∧
    is_truthy (prop (req_body request) "text") = true ∧
    is_truthy (prop (req_body request) "voice") = true ∧
    (∀ text, prop (req_body request) "text" = JStr text → code_units ops text ≤ 4096) ∧
    url = "https://api.openai.com/v1/audio/speech" ∧
    init = mkInit "POST" [("Authorization", "Bearer " +:+ k);
                          ("Content-Type", "application/json")]
             (JObj [("model", JStr "tts-1");
                    ("input", prop (req_body request) "text");
                    ("voice", prop (req_body request) "voice");
                    ("response_format", JStr "mp3")]) ∧
    length (List.filter is_fetch (calls (run X (handler request) w))) = 1%nat.
Proof.
  intros Hc.
  destruct (destructure "request.body" "text" (req_body request)) as [body|] eqn:Hbody.
  - assert (body = req_body request) as ->
      by (destruct (req_body request); by simplify_eq/=).
    destruct key as [k|]; proxy_cases.
    all: repeat (apply elem_of_cons in Hc as [Hc|Hc]); try (by apply elem_of_nil in Hc).
    all: try discriminate Hc.
    all: simplify_eq.
    all: match goal with
         | H : _ || _ = false |- _ => apply orb_false_iff in H as [Htext Hvoice]
         end.
    all: repeat match goal with
         | H : negb _ = false |- _ => apply negb_false_iff in H
         | H : negb _ = true |- _ => apply negb_true_iff in H
         end.
    all: exists k; split_and!; try done.
    all: try (by apply String.eqb_neq).
    all: try (by apply String.eqb_eq).
    all: intros text Htxt;
      match goal with
      | H : exceeds _ (length_of _ _) _ = Normal false |- _ =>
          rewrite Htxt in H; cbn in H; injection H as H; by apply Z.ltb_ge
      end.
  - destruct key as [k|]; proxy_cases.
    all: repeat (apply elem_of_cons in Hc as [Hc|Hc]); try (by apply elem_of_nil in Hc).
    all: discriminate Hc.
Qed.

(** X27.  When the remote service answers with a success status and a body of
    bytes, the answer is 200 with these bytes unchanged and the content
    type [audio/mpeg] beside the CORS headers. *)
Theorem generate_audio_success (w : W) (request : Request) (k text voice audio : string)
    (status : Z) (json : Completion JsValue) :
  proxy_console_returns X →
  key = Some k →
  k ≠ EmptyString →
  req_method request = "POST" →
  destructure "request.body" "text" (req_body request) = Normal (req_body request) →
  prop (req_body request) "text" = JStr text →
  text ≠ EmptyString →
  code_units ops text ≤ 4096 →
  prop (req_body request) "voice" = JStr voice →
  voice ≠ EmptyString →
  (∀ url init w', (X (fetch url init) w').1 =
                  Normal (mkUpstream true status json (Normal audio))) →
  outcome (run X (handler request) w) =
    Normal (mkReply (cors_headers ++ [("Content-Type", "audio/mpeg")])%list 200 (Bytes audio)).
Proof.
  intros (Hlog & Hwarn & Herror) -> Hk Hm Hbody Htext Hne Hshort%Z.ltb_ge Hvoice Hvne Hfetch.
  apply String.eqb_neq in Hk, Hne, Hvne.
  unfold GenerateAudio.handler, await, lift, mbind, Prog_bind, or_else.
  rewrite Hm. cbn in *. rewrite Hk. cbn.
  repeat (rewrite ?Hlog, ?Herror, ?Hfetch, ?Hbody, ?Htext, ?Hvoice, ?Hne, ?Hvne, ?Hshort; cbn).
  done.
Qed.

(** X28.  When the remote service answers without a success status, its status is
    passed on, with the [message] of the [error] in its JSON body when that
    is a non-empty string, and with a fixed message when there is none. *)
Theorem generate_audio_upstream_error (w : W) (request : Request) (k text voice : string)
    (status : Z) (errorData err : JsValue) (buffer : Completion string) :
  proxy_console_returns X →
  key = Some k →
  k ≠ EmptyString →
  req_method request = "POST" →
  destructure "request.body" "text" (req_body request) = Normal (req_body request) →
  prop (req_body request) "text" = JStr text →
  text ≠ EmptyString →
  code_units ops text ≤ 4096 →
  prop (req_body request) "voice" = JStr voice →
  voice ≠ EmptyString →
  (∀ url init w', (X (fetch url init) w').1 =
                  Normal (mkUpstream false status (Normal errorData) buffer)) →
  get_prop errorData "error" = Normal err →
  (∀ message, opt_prop err "message" = JStr message → message ≠ EmptyString →
     outcome (run X (handler request) w) =
       Normal (mkReply cors_headers status
                 (JsonBody (JObj [("error",
                                   JStr ("OpenAI API request failed: " +:+ message))])))) ∧
  (is_truthy (opt_prop err "message") = false →
     outcome (run X (handler request) w) =
       Normal (mkReply cors_headers status
                 (JsonBody (JObj [("error",
                                   JStr "OpenAI API request failed: An unknown error occurred with the OpenAI API.")])))).
Proof.
  intros (Hlog & Hwarn & Herror) -> Hk Hm Hbody Htext Hne Hshort%Z.ltb_ge Hvoice Hvne Hfetch Herr.
  apply String.eqb_neq in Hk, Hne, Hvne.
  unfold GenerateAudio.handler, await, lift, mbind, Prog_bind, or_else.
  rewrite Hm. cbn in *. rewrite Hk. cbn.
  repeat (rewrite ?Hlog, ?Herror, ?Hfetch, ?Hbody, ?Htext, ?Hvoice, ?Hne, ?Hvne, ?Hshort; cbn).
  rewrite Herr. cbn.
  split.
  - intros message -> Hmsg%String.eqb_neq. cbn. rewrite Hmsg. cbn. done.
  - intros ->. done.
Qed.
End GenerateAudio.

(** ** Instances for the speech endpoint *)

(** An instance: a POST without a body when no key is set. *)
Lemma generate_audio_replies_witness :
  (∃ reply,
     Proxy.outcome (Proxy.run (remote (Thrown (TypeError "fetch failed")))
                      (Proxy.GenerateAudio.handler plain_ops None (mkRequest "POST" JUndefined))
                      ()) = Normal reply ∧
     ((Proxy.reply_headers reply = Proxy.cors_headers ∧
       ∀ audio, Proxy.reply_body reply ≠ Proxy.Bytes audio) ∨
      (Proxy.reply_headers reply =
         (Proxy.cors_headers ++ [("Content-Type", "audio/mpeg")])%list ∧
       Proxy.reply_status reply = 200 ∧ ∃ audio, Proxy.reply_body reply = Proxy.Bytes audio))) ∧
  Proxy.outcome (Proxy.run (remote (Thrown (TypeError "fetch failed")))
                   (Proxy.GenerateAudio.handler plain_ops None (mkRequest "POST" JUndefined)) ()) =
    Normal (Proxy.mkReply Proxy.cors_headers 500
              (Proxy.JsonBody
                 (JObj [("error", JStr "API key is not configured on the server.")]))) ∧
  existsb is_fetch
    (Proxy.calls (Proxy.run (remote (Thrown (TypeError "fetch failed")))
                    (Proxy.GenerateAudio.handler plain_ops None (mkRequest "POST" JUndefined))
                    ())) = false.
Proof.
  destruct (generate_audio_replies (remote (Thrown (TypeError "fetch failed"))) plain_ops None ()
              (mkRequest "POST" JUndefined)) as [Hreply Hkey].
  - apply remote_console_returns.
  - split; [exact Hreply|]. apply Hkey; reflexivity.
Defined.

(** An instance: a request without a voice. *)
Lemma generate_audio_parameters_required_witness :
  Proxy.outcome (Proxy.run (remote (Thrown (TypeError "fetch failed")))
                   (Proxy.GenerateAudio.handler plain_ops (Some "k")
                      (mkRequest "POST" (JObj [("text", JStr "Hello")]))) ()) =
    Normal (Proxy.mkReply Proxy.cors_headers 400
              (Proxy.JsonBody
                 (JObj [("error", JStr "Missing required parameters: text and voice.")]))) ∧
  existsb is_fetch
    (Proxy.calls (Proxy.run (remote (Thrown (TypeError "fetch failed")))
                    (Proxy.GenerateAudio.handler plain_ops (Some "k")
                       (mkRequest "POST" (JObj [("text", JStr "Hello")]))) ())) = false.
Proof.
  apply (generate_audio_parameters_required (remote (Thrown (TypeError "fetch failed")))
           plain_ops (Some "k") () (mkRequest "POST" (JObj [("text", JStr "Hello")]))).
  - apply remote_console_returns.
  - reflexivity.
  - reflexivity.
  - reflexivity.
  - right. reflexivity.
Defined.

(** An instance: a text of 4097 code units. *)
Lemma generate_audio_text_too_long_witness :
  Proxy.outcome (Proxy.run (remote (Thrown (TypeError "fetch failed")))
                   (Proxy.GenerateAudio.handler plain_ops (Some "k")
                      (mkRequest "POST" (JObj [("text", JStr long_text);
                                               ("voice", JStr "alloy")]))) ()) =
    Normal (Proxy.mkReply Proxy.cors_headers 400
              (Proxy.JsonBody
                 (JObj [("error",
                         JStr ("Input text is too long. The maximum is 4096 characters, but this chunk has "
                               +:+ number_text (Proxy.code_units plain_ops long_text) +:+ "."))]))) ∧
  existsb is_fetch
    (Proxy.calls (Proxy.run (remote (Thrown (TypeError "fetch failed")))
                    (Proxy.GenerateAudio.handler plain_ops (Some "k")
                       (mkRequest "POST" (JObj [("text", JStr long_text);
                                                ("voice", JStr "alloy")]))) ())) = false.
Proof.
  apply (generate_audio_text_too_long (remote (Thrown (TypeError "fetch failed")))
           plain_ops (Some "k") ()
           (mkRequest "POST" (JObj [("text", JStr long_text); ("voice", JStr "alloy")]))
           long_text).
  - apply remote_console_returns.
  - reflexivity.
  - reflexivity.
  - reflexivity.
  - reflexivity.
  - discriminate.
  - reflexivity.
  - rewrite long_text_code_units. reflexivity.
Defined.

(** An instance: the request made for a greeting. *)
Lemma generate_audio_fetch_guard_witness :
  ∃ k,
    Some "k" = Some k ∧ k ≠ EmptyString ∧
    req_method (mkRequest "POST" (JObj [("text", JStr "Hello"); ("voice", JStr "alloy")])) =
      "POST" ∧
    is_truthy (prop (req_body (mkRequest "POST" (JObj [("text", JStr "Hello");
                                                       ("voice", JStr "alloy")]))) "text")
      = true ∧
    is_truthy (prop (req_body (mkRequest "POST" (JObj [("text", JStr "Hello");
                                                       ("voice", JStr "alloy")]))) "voice")
      = true ∧
    (∀ text,
       prop (req_body (mkRequest "POST" (JObj [("text", JStr "Hello");
                                               ("voice", JStr "alloy")]))) "text" = JStr text →
       Proxy.code_units plain_ops text ≤ 4096) ∧
    "https://api.openai.com/v1/audio/speech" = "https://api.openai.com/v1/audio/speech" ∧
    Proxy.mkInit "POST" [("Authorization", "Bearer k"); ("Content-Type", "application/json")]
      (JObj [("model", JStr "tts-1"); ("input", JStr "Hello"); ("voice", JStr "alloy");
             ("response_format", JStr "mp3")]) =
    Proxy.mkInit "POST" [("Authorization", "Bearer " +:+ k);
                         ("Content-Type", "application/json")]
      (JObj [("model", JStr "tts-1");
             ("input", prop (req_body (mkRequest "POST" (JObj [("text", JStr "Hello");
                                                               ("voice", JStr "alloy")])))
                         "text");
             ("voice", prop (req_body (mkRequest "POST" (JObj [("text", JStr "Hello");
                                                               ("voice", JStr "alloy")])))
                         "voice");
             ("response_format", JStr "mp3")]) ∧
    length (List.filter is_fetch
              (Proxy.calls (Proxy.run (remote (Thrown (TypeError "fetch failed")))
                              (Proxy.GenerateAudio.handler plain_ops (Some "k")
                                 (mkRequest "POST" (JObj [("text", JStr "Hello");
                                                          ("voice", JStr "alloy")])))
                              ()))) = 1%nat.
Proof.
  apply (generate_audio_fetch_guard (remote (Thrown (TypeError "fetch failed"))) plain_ops
           (Some "k") ()
           (mkRequest "POST" (JObj [("text", JStr "Hello"); ("voice", JStr "alloy")]))).
  apply list_elem_of_In. cbn. repeat (first [left; reflexivity | right]).
Defined.

(** An instance: the remote service answers with three bytes. *)
Lemma generate_audio_success_witness :
  Proxy.outcome
    (Proxy.run
       (remote (Normal (Proxy.mkUpstream true 200 (Thrown (TypeError "not JSON"))
                          (Normal "ID3"))))
       (Proxy.GenerateAudio.handler plain_ops (Some "k")
          (mkRequest "POST" (JObj [("text", JStr "Hello"); ("voice", JStr "alloy")]))) ()) =
    Normal (Proxy.mkReply (Proxy.cors_headers ++ [("Content-Type", "audio/mpeg")])%list 200
              (Proxy.Bytes "ID3")).
Proof.
  apply (generate_audio_success
           (remote (Normal (Proxy.mkUpstream true 200 (Thrown (TypeError "not JSON"))
                              (Normal "ID3"))))
           plain_ops (Some "k") ()
           (mkRequest "POST" (JObj [("text", JStr "Hello"); ("voice", JStr "alloy")]))
           "k" "Hello" "alloy" "ID3" 200 (Thrown (TypeError "not JSON"))).
  - apply remote_console_returns.
  - reflexivity.
  - discriminate.
  - reflexivity.
  - reflexivity.
  - reflexivity.
  - discriminate.
  - vm_compute. discriminate.
  - reflexivity.
  - discriminate.
  - reflexivity.
Defined.

(** An instance: the remote service refuses the key. *)
Lemma generate_audio_upstream_error_witness :
  Proxy.outcome
    (Proxy.run
       (remote (Normal (Proxy.mkUpstream false 401
                          (Normal (JObj [("error", JObj [("message", JStr "Unauthorized")])]))
                          (Thrown (TypeError "body used already")))))
       (Proxy.GenerateAudio.handler plain_ops (Some "k")
          (mkRequest "POST" (JObj [("text", JStr "Hello"); ("voice", JStr "alloy")]))) ()) =
    Normal (Proxy.mkReply Proxy.cors_headers 401
              (Proxy.JsonBody
                 (JObj [("error", JStr ("OpenAI API request failed: " +:+ "Unauthorized"))]))).
Proof.
  destruct (generate_audio_upstream_error
              (remote (Normal (Proxy.mkUpstream false 401
                                 (Normal (JObj [("error",
                                                 JObj [("message", JStr "Unauthorized")])]))
                                 (Thrown (TypeError "body used already")))))
              plain_ops (Some "k") ()
              (mkRequest "POST" (JObj [("text", JStr "Hello"); ("voice", JStr "alloy")]))
              "k" "Hello" "alloy" 401
              (JObj [("error", JObj [("message", JStr "Unauthorized")])])
              (JObj [("message", JStr "Unauthorized")])
              (Thrown (TypeError "body used already")))
    as [Hmessage _].
  - apply remote_console_returns.
  - reflexivity.
  - discriminate.
  - reflexivity.
  - reflexivity.
  - reflexivity.
  - discriminate.
  - vm_compute. discriminate.
  - reflexivity.
  - discriminate.
  - reflexivity.
  - reflexivity.
  - apply (Hmessage "Unauthorized"); [reflexivity | discriminate].
Defined.
